(** * A shallow embedding of [gradescope_request.py]

    The client logs into Gradescope through a [requests] session and scrapes
    the returned pages with BeautifulSoup.  The embedding keeps the control
    flow of the Python source: exceptions are an error result, the attributes
    of the [Gradescope] object and the traffic of its session are threaded
    through a state monad, and every [for] loop is a monadic fold over the
    list it iterates.

    Modelling conventions.
    - A Python [str] is a [string] of 8-bit characters; the character classes
      used by [str.strip], [int] and the pattern [\d] are their ASCII parts.
    - A parsed document is a tree of [Tag]s and [NavigableString]s.  The
      markup parser itself is a library: a response carries the tree that
      [BeautifulSoup(response.text, 'html.parser')] builds from its body.
    - The remote site is a function from the requests a session has sent
      (newest first) to the response of the newest one, after redirects.
      Transport failures are outside the model. *)

From Stdlib Require Import String Ascii List ZArith Lia Bool Arith.
From Stdlib Require Import DecimalString.
Import ListNotations.
Local Open Scope string_scope.
Local Open Scope list_scope.
Local Open Scope nat_scope.

Notation "a +:+ b" := (String.append a b) (at level 60, right associativity).

(** ** Python strings *)

Module Str.

(** [s.startswith(p)] *)
Fixpoint startswith (p s : string) : bool :=
  match p, s with
  | EmptyString, _ => true
  | String a p', String b s' => Ascii.eqb a b && startswith p' s'
  | String _ _, EmptyString => false
  end.

(** [sub in s] *)
Fixpoint contains (sub s : string) : bool :=
  startswith sub s ||
  match s with
  | EmptyString => false
  | String _ s' => contains sub s'
  end.

(** [s.split(sep)] for a one-character separator; never the empty list. *)
Fixpoint split (sep : ascii) (s : string) : list string :=
  match s with
  | EmptyString => [EmptyString]
  | String c s' =>
      if Ascii.eqb c sep then EmptyString :: split sep s'
      else match split sep s' with
           | [] => [String c EmptyString]
           | w :: ws => String c w :: ws
           end
  end.

(** [l[-1]] on a list of strings known to be non-empty. *)
Definition last_item (l : list string) : string := List.last l EmptyString.

(** [sep.join(l)] *)
Fixpoint join (sep : string) (l : list string) : string :=
  match l with
  | [] => EmptyString
  | [x] => x
  | x :: rest => x +:+ sep +:+ join sep rest
  end.

Definition code (c : ascii) : nat := nat_of_ascii c.

(** ASCII part of [str.isspace]: TAB..CR, FS..US and the space. *)
Definition isspace (c : ascii) : bool :=
  let n := code c in
  ((9 <=? n) && (n <=? 13)) || ((28 <=? n) && (n <=? 32)).

(** C-locale [isspace], which [int()] uses on an ASCII string. *)
Definition c_isspace (c : ascii) : bool :=
  let n := code c in
  ((9 <=? n) && (n <=? 13)) || (n =? 32).

(** ASCII part of [\d]. *)
Definition isdigit (c : ascii) : bool :=
  let n := code c in (48 <=? n) && (n <=? 57).

Fixpoint lstrip_by (f : ascii -> bool) (s : string) : string :=
  match s with
  | EmptyString => EmptyString
  | String c s' => if f c then lstrip_by f s' else s
  end.

Fixpoint rev_onto (s acc : string) : string :=
  match s with
  | EmptyString => acc
  | String c s' => rev_onto s' (String c acc)
  end.

Definition rev (s : string) : string := rev_onto s EmptyString.

Definition rstrip_by (f : ascii -> bool) (s : string) : string :=
  rev (lstrip_by f (rev s)).

(** [s.strip()] *)
Definition strip (s : string) : string := rstrip_by isspace (lstrip_by isspace s).

Fixpoint filter (f : ascii -> bool) (s : string) : string :=
  match s with
  | EmptyString => EmptyString
  | String c s' => if f c then String c (filter f s') else filter f s'
  end.

Fixpoint forallb (f : ascii -> bool) (s : string) : bool :=
  match s with
  | EmptyString => true
  | String c s' => f c && forallb f s'
  end.

(** [''.join(re.findall(r'\d', text))]: the digits of [text], in order. *)
Definition digits_of (text : string) : string := filter isdigit text.

(** Value of a string of decimal digits, most significant first. *)
Fixpoint digits_value (acc : Z) (s : string) : Z :=
  match s with
  | EmptyString => acc
  | String c s' => digits_value (10 * acc + (Z.of_nat (code c) - 48)) s'
  end.

(** [str(z)] for an [int]. *)
Definition of_Z (z : Z) : string := NilZero.string_of_int (Z.to_int z).

Definition is_empty (s : string) : bool :=
  match s with EmptyString => true | _ => false end.

Fixpoint map (f : ascii -> ascii) (s : string) : string :=
  match s with
  | EmptyString => EmptyString
  | String c s' => String (f c) (map f s')
  end.

Definition lower_char (c : ascii) : ascii :=
  let n := code c in
  if (65 <=? n) && (n <=? 90) then ascii_of_nat (n + 32) else c.

(** [s.lower()] on ASCII. *)
Definition lower (s : string) : string := map lower_char s.

(** [s.find(c)] as the pair [(s[:i], s[i+1:])], [None] when [c] is absent. *)
Fixpoint cut (c : ascii) (s : string) : option (string * string) :=
  match s with
  | EmptyString => None
  | String a s' =>
      if Ascii.eqb a c then Some (EmptyString, s')
      else match cut c s' with
           | Some (l, r) => Some (String a l, r)
           | None => None
           end
  end.

(** [s[n:]] *)
Fixpoint drop (n : nat) (s : string) : string :=
  match n, s with
  | S n', String _ s' => drop n' s'
  | _, _ => s
  end.

End Str.

(** ** Exceptions and results *)

(** The exceptions the client can raise: its own classes (all subclasses of
    [GradescopeError], each carrying [msg]) and the built-in ones raised by
    the interpreter and the libraries on the paths the client takes.  A
    built-in exception carries the datum its message is built from. *)
Inductive exn : Type :=
| LoginError (msg : string)
| NotLoggedInError (msg : string)
| ResponseError (msg : string)
| TypeError (msg : string)
| UnboundLocalError (variable : string)
| AttributeError (attribute : string)
| KeyError (key : string)
| ValueError (literal : string).

(** [type(e).__name__] *)
Definition exn_class (e : exn) : string :=
  match e with
  | LoginError _ => "LoginError"
  | NotLoggedInError _ => "NotLoggedInError"
  | ResponseError _ => "ResponseError"
  | TypeError _ => "TypeError"
  | UnboundLocalError _ => "UnboundLocalError"
  | AttributeError _ => "AttributeError"
  | KeyError _ => "KeyError"
  | ValueError _ => "ValueError"
  end.

(** [isinstance(e, GradescopeError)] *)
Definition is_GradescopeError (e : exn) : bool :=
  match e with
  | LoginError _ | NotLoggedInError _ | ResponseError _ => true
  | _ => false
  end.

(** Default messages of the constructors of the error classes. *)
Definition LoginError_default : exn :=
  LoginError "Login failed, please check username and password.".
Definition NotLoggedInError_default : exn := NotLoggedInError "Not logged in.".

Inductive result (A : Type) : Type :=
| Ok (a : A)
| Raise (e : exn).
Arguments Ok {A} a.
Arguments Raise {A} e.

Definition rbind {A B} (r : result A) (k : A -> result B) : result B :=
  match r with
  | Ok a => k a
  | Raise e => Raise e
  end.

Declare Scope py_scope.
Delimit Scope py_scope with py.

Notation "x <- c ;; k" := (rbind c (fun x => k))
  (at level 61, c at next level, right associativity) : py_scope.

(** A [for] loop whose body can raise and which updates local variables [S]. *)
Fixpoint for_each {A S} (xs : list A) (body : A -> S -> result S) (s : S)
  : result S :=
  match xs with
  | [] => Ok s
  | x :: rest => rbind (body x s) (for_each rest body)
  end.

(** A local variable that may not have been assigned yet. *)
Definition read_local {A} (name : string) (v : option A) : result A :=
  match v with
  | Some a => Ok a
  | None => Raise (UnboundLocalError name)
  end.

(** [int(text)] on an ASCII string: optional blanks, an optional sign, digits
    with single underscores between them, optional blanks.  CPython refuses
    literals of more than [int_max_str_digits] digits (default setting). *)
Definition int_max_str_digits : nat := 4300.

Fixpoint valid_digits (prev_digit : bool) (s : string) : bool :=
  match s with
  | EmptyString => prev_digit
  | String c s' =>
      if Str.isdigit c then valid_digits true s'
      else if Ascii.eqb c "_"%char then prev_digit && valid_digits false s'
      else false
  end.

Definition py_int (text : string) : result Z :=
  let body := Str.rstrip_by Str.c_isspace (Str.lstrip_by Str.c_isspace text) in
  let '(negative, rest) :=
    match body with
    | String c r =>
        if Ascii.eqb c "-"%char then (true, r)
        else if Ascii.eqb c "+"%char then (false, r)
        else (false, body)
    | EmptyString => (false, body)
    end in
  let ds := Str.digits_of rest in
  if valid_digits false rest && (String.length ds <=? int_max_str_digits)
  then Ok (if negative then - Str.digits_value 0 ds else Str.digits_value 0 ds)%Z
  else Raise (ValueError text).

Local Open Scope py_scope.

(** ** [urllib.parse.urljoin]

    The record helpers build their URLs with [urljoin].  This is the
    algorithm of CPython's [urllib.parse] on ASCII text: [urlsplit] and
    [urlparse] cut a reference into six components, [urljoin] merges the
    path of the reference into that of the base and removes dot segments,
    [urlunparse] prints the result.  A host in brackets is only checked for
    balance; the validation of the address inside is not modelled. *)

Module urllib.

Definition uses_relative : list string :=
  [EmptyString; "ftp"; "http"; "gopher"; "nntp"; "imap"; "wais"; "file"; "https";
   "shttp"; "mms"; "prospero"; "rtsp"; "rtsps"; "rtspu"; "sftp"; "svn";
   "svn+ssh"; "ws"; "wss"].

Definition uses_netloc : list string :=
  [EmptyString; "ftp"; "http"; "gopher"; "nntp"; "telnet"; "imap"; "wais"; "file";
   "mms"; "https"; "shttp"; "snews"; "prospero"; "rtsp"; "rtsps"; "rtspu";
   "rsync"; "svn"; "svn+ssh"; "sftp"; "nfs"; "git"; "git+ssh"; "ws"; "wss";
   "itms-services"].

Definition uses_params : list string :=
  [EmptyString; "ftp"; "hdl"; "prospero"; "http"; "imap"; "https"; "shttp"; "rtsp";
   "rtsps"; "rtspu"; "sip"; "sips"; "mms"; "sftp"; "tel"].

Definition mem (s : string) (l : list string) : bool := existsb (String.eqb s) l.

Definition isalpha (c : ascii) : bool :=
  let n := Str.code c in
  ((65 <=? n) && (n <=? 90)) || ((97 <=? n) && (n <=? 122)).

Definition scheme_char (c : ascii) : bool :=
  isalpha c || Str.isdigit c ||
  Ascii.eqb c "+"%char || Ascii.eqb c "-"%char || Ascii.eqb c "."%char.

Definition c0_control_or_space (c : ascii) : bool := Str.code c <=? 32.

Definition unsafe_byte (c : ascii) : bool :=
  (Str.code c =? 9) || (Str.code c =? 10) || (Str.code c =? 13).

Record parts : Type := mkParts {
  scheme : string;
  netloc : string;
  path : string;
  params : string;
  query : string;
  fragment : string
}.

(** The text before the first character satisfying [f], and the rest. *)
Fixpoint span_until (f : ascii -> bool) (s : string) : string * string :=
  match s with
  | EmptyString => (EmptyString, EmptyString)
  | String c s' =>
      if f c then (EmptyString, s)
      else let '(l, r) := span_until f s' in (String c l, r)
  end.

Definition netloc_delim (c : ascii) : bool :=
  Ascii.eqb c "/"%char || Ascii.eqb c "?"%char || Ascii.eqb c "#"%char.

Definition has_char (c : ascii) (s : string) : bool :=
  match Str.cut c s with Some _ => true | None => false end.

(** [url.rfind('/')] as the pair [(url[:r+1], url[r+1:])]. *)
Definition rcut_keep (c : ascii) (s : string) : option (string * string) :=
  match Str.cut c (Str.rev s) with
  | Some (l, r) => Some (Str.rev r +:+ String c EmptyString, Str.rev l)
  | None => None
  end.

Definition _splitparams (url : string) : string * string :=
  match rcut_keep "/"%char url with
  | Some (head, tail) =>
      match Str.cut ";"%char tail with
      | Some (l, r) => (head +:+ l, r)
      | None => (url, EmptyString)
      end
  | None =>
      match Str.cut ";"%char url with
      | Some (l, r) => (l, r)
      | None => (url, EmptyString)
      end
  end.

Definition urlsplit (url0 default_scheme : string) : result parts :=
  let url := Str.lstrip_by c0_control_or_space url0 in
  let url := Str.filter (fun c => negb (unsafe_byte c)) url in
  let '(scheme, url) :=
    match Str.cut ":"%char url with
    | Some (String c0 rest as candidate, after) =>
        if isalpha c0 && Str.forallb scheme_char candidate
        then (Str.lower candidate, after)
        else (default_scheme, url)
    | _ => (default_scheme, url)
    end in
  netloc_url <-
    (if Str.startswith "//" url then
       let '(netloc, rest) := span_until netloc_delim (Str.drop 2 url) in
       if xorb (has_char "["%char netloc) (has_char "]"%char netloc)
       then Raise (ValueError url0)
       else Ok (netloc, rest)
     else Ok (EmptyString, url)) ;;
  let '(netloc, url) := netloc_url in
  let '(url, fragment) :=
    match Str.cut "#"%char url with
    | Some (l, r) => (l, r)
    | None => (url, EmptyString)
    end in
  let '(url, query) :=
    match Str.cut "?"%char url with
    | Some (l, r) => (l, r)
    | None => (url, EmptyString)
    end in
  Ok (mkParts scheme netloc url EmptyString query fragment).

Definition urlparse (url default_scheme : string) : result parts :=
  p <- urlsplit url default_scheme ;;
  if mem (scheme p) uses_params && has_char ";"%char (path p)
  then let '(url', params') := _splitparams (path p) in
       Ok (mkParts (scheme p) (netloc p) url' params' (query p) (fragment p))
  else Ok p.

Definition urlunsplit (scheme netloc url query fragment : string) : string :=
  let url :=
    if negb (Str.is_empty netloc) ||
       (negb (Str.is_empty scheme) && mem scheme uses_netloc &&
        negb (Str.startswith "//" url))
    then "//" +:+ netloc +:+
         (if negb (Str.is_empty url) && negb (Str.startswith "/" url)
          then "/" +:+ url else url)
    else url in
  let url := if Str.is_empty scheme then url else scheme +:+ ":" +:+ url in
  let url := if Str.is_empty query then url else url +:+ "?" +:+ query in
  if Str.is_empty fragment then url else url +:+ "#" +:+ fragment.

Definition urlunparse (p : parts) : string :=
  let url := if Str.is_empty (params p) then path p
             else path p +:+ ";" +:+ params p in
  urlunsplit (scheme p) (netloc p) url (query p) (fragment p).

(** [segments[1:-1] = filter(None, segments[1:-1])] *)
Definition drop_empty_middle (segments : list string) : list string :=
  match segments with
  | first :: (_ :: _) as rest =>
      first :: List.filter (fun s => negb (Str.is_empty s)) (removelast rest)
            ++ [List.last rest EmptyString]
  | _ => segments
  end.

(** The loop over [segments]; [resolved] is kept newest first. *)
Fixpoint resolve (segments resolved : list string) : list string :=
  match segments with
  | [] => List.rev resolved
  | seg :: rest =>
      if String.eqb seg ".." then resolve rest (List.tl resolved)
      else if String.eqb seg "." then resolve rest resolved
      else resolve rest (seg :: resolved)
  end.

Definition urljoin (base url : string) : result string :=
  if Str.is_empty base then Ok url
  else if Str.is_empty url then Ok base
  else
    b <- urlparse base EmptyString ;;
    u <- urlparse url (scheme b) ;;
    if negb (String.eqb (scheme u) (scheme b)) || negb (mem (scheme u) uses_relative)
    then Ok url
    else if mem (scheme u) uses_netloc && negb (Str.is_empty (netloc u))
    then Ok (urlunparse u)
    else
      let netloc' := if mem (scheme u) uses_netloc then netloc b else netloc u in
      if Str.is_empty (path u) && Str.is_empty (params u)
      then Ok (urlunparse
                 (mkParts (scheme u) netloc' (path b) (params b)
                    (if Str.is_empty (query u) then query b else query u)
                    (fragment u)))
      else
        let base_parts := Str.split "/"%char (path b) in
        let base_parts :=
          if Str.is_empty (Str.last_item base_parts) then base_parts
          else removelast base_parts in
        let segments :=
          if Str.startswith "/" (path u) then Str.split "/"%char (path u)
          else drop_empty_middle (base_parts ++ Str.split "/"%char (path u)) in
        let resolved := resolve segments [] in
        let last_seg := Str.last_item segments in
        let resolved :=
          if String.eqb last_seg "." || String.eqb last_seg ".."
          then resolved ++ [EmptyString] else resolved in
        let joined := Str.join "/" resolved in
        Ok (urlunparse
              (mkParts (scheme u) netloc'
                 (if Str.is_empty joined then "/" else joined)
                 (params u) (query u) (fragment u))).

End urllib.

(** ** Constants and domain records *)

Module Constants.
Definition BASE_URL : string := "https://www.gradescope.com".
Definition LOGIN_URL : string := BASE_URL +:+ "/login".
End Constants.

Module Course.

(** [url] is what [course.get('href', None)] returned, so it may be [None]. *)
Record t : Type := mk {
  course_id : Z;
  url : option string;
  term : string;
  short_name : string;
  full_name : string
}.

(** [urljoin] returns its base when the reference is [None] or empty. *)
Definition get_url (self : t) : result string :=
  match url self with
  | Some u => urllib.urljoin Constants.BASE_URL u
  | None => Ok Constants.BASE_URL
  end.

End Course.

Module Assignment.

Record t : Type := mk {
  assignment_id : Z;
  ready_for_submission : bool;
  url : string;
  title : string;
  late_submission_warning : bool;
  submission_status : string;
  released_time : string;
  due_time : string
}.

Definition get_url (self : t) : result string :=
  urllib.urljoin Constants.BASE_URL (url self).

Definition get_grades_url (self : t) : result string :=
  urllib.urljoin Constants.BASE_URL (url self +:+ "/scores.csv").

End Assignment.

Module Submission.

Record t : Type := mk {
  course_id : Z;
  assignment_id : Z;
  member_id : Z;
  submission_id : Z;
  created_at : string;
  score : Z;
  url : string
}.

Definition get_url (self : t) : result string :=
  urllib.urljoin Constants.BASE_URL (url self).

Definition get_file_url (self : t) : result string :=
  urllib.urljoin Constants.BASE_URL (url self +:+ ".zip").

End Submission.

(** The values [get_assignments] stores in its per-row [dict]. *)
Inductive value : Type :=
| VInt (z : Z)
| VBool (b : bool)
| VStr (s : string).

(** A [dict] with string keys, in insertion order. *)
Definition dict : Type := list (string * value).

(** [d[k] = v] *)
Fixpoint dict_set (k : string) (v : value) (d : dict) : dict :=
  match d with
  | [] => [(k, v)]
  | (k', v') :: rest =>
      if String.eqb k k' then (k, v) :: rest else (k', v') :: dict_set k v rest
  end.

Fixpoint dict_get (k : string) (d : dict) : option value :=
  match d with
  | [] => None
  | (k', v) :: rest => if String.eqb k k' then Some v else dict_get k rest
  end.

(** ** Parsed documents (BeautifulSoup) *)

Set Warnings "-register-all".

(** A tag keeps its [class] attribute, which the parser splits into a list,
    apart from its single-valued attributes. *)
Inductive node : Type :=
| Tag (name : string) (class_ : list string) (attrs : list (string * string))
      (contents : list node)
| NavigableString (text : string).

(** A node reached by navigation, with the siblings that follow it. *)
Record element : Type := mkElement {
  here : node;
  next_siblings : list node
}.

Fixpoint with_siblings (l : list node) : list element :=
  match l with
  | [] => []
  | c :: rest => mkElement c rest :: with_siblings rest
  end.

(** [tag.descendants]: every node below [n], in document order. *)
Fixpoint descendants (n : node) : list element :=
  match n with
  | Tag _ _ _ cs =>
      (fix walk (l : list node) : list element :=
         match l with
         | [] => []
         | c :: rest => mkElement c rest :: descendants c ++ walk rest
         end) cs
  | NavigableString _ => []
  end.

(** [tag.string] *)
Fixpoint tag_string (n : node) : option string :=
  match n with
  | NavigableString s => Some s
  | Tag _ _ _ [c] => tag_string c
  | Tag _ _ _ _ => None
  end.

Fixpoint assoc (k : string) (l : list (string * string)) : option string :=
  match l with
  | [] => None
  | (k', v) :: rest => if String.eqb k k' then Some v else assoc k rest
  end.

(** [tag.name] *)
Definition tag_name (e : element) : option string :=
  match here e with
  | Tag name _ _ _ => Some name
  | NavigableString _ => None
  end.

(** [tag.get(key)] for a single-valued attribute. *)
Definition tag_get (key : string) (e : element) : option string :=
  match here e with
  | Tag _ _ attrs _ => assoc key attrs
  | NavigableString _ => None
  end.

(** [tag[key]] *)
Definition tag_item (key : string) (e : element) : result string :=
  match tag_get key e with
  | Some v => Ok v
  | None => Raise (KeyError key)
  end.

(** The strings below a node, in document order. *)
Definition all_strings (n : node) : list string :=
  flat_map (fun e => match here e with
                     | NavigableString s => [s]
                     | Tag _ _ _ _ => []
                     end) (descendants n).

(** [tag.get_text(strip=strip)]: with [strip], every string is stripped and
    the ones left empty are dropped. *)
Definition get_text (strip : bool) (e : element) : string :=
  let strings := all_strings (here e) in
  let strings :=
    if strip
    then List.filter (fun s => negb (Str.is_empty s)) (List.map Str.strip strings)
    else strings in
  Str.join EmptyString strings.

(** What a search looks for: a tag name, attribute values, the tag's string. *)
Record strainer : Type := mkStrainer {
  want_name : option string;
  want_attrs : list (string * string);
  want_string : option string
}.

(** A class matches one of the tag's classes, or all of them joined. *)
Definition matches_class (wanted : string) (classes : list string) : bool :=
  existsb (String.eqb wanted) classes || String.eqb (Str.join " " classes) wanted.

Definition matches_attr (n : node) (kv : string * string) : bool :=
  match n with
  | Tag _ classes attrs _ =>
      if String.eqb (fst kv) "class" then matches_class (snd kv) classes
      else match assoc (fst kv) attrs with
           | Some v => String.eqb v (snd kv)
           | None => false
           end
  | NavigableString _ => false
  end.

Definition search_tag (s : strainer) (n : node) : bool :=
  match n with
  | Tag name _ _ _ =>
      match want_name s with Some w => String.eqb w name | None => true end
      && List.forallb (matches_attr n) (want_attrs s)
      && match want_string s with
         | Some t => match tag_string n with
                     | Some x => String.eqb x t
                     | None => false
                     end
         | None => true
         end
  | NavigableString _ => false
  end.

(** [tag.find_all(...)], [tag.find(...)], [tag.find_next_sibling(...)] *)
Definition find_all (s : strainer) (e : element) : list element :=
  List.filter (fun d => search_tag s (here d)) (descendants (here e)).

Definition find (s : strainer) (e : element) : option element :=
  List.hd_error (find_all s e).

Definition find_next_sibling (s : strainer) (e : element) : option element :=
  List.hd_error
    (List.filter (fun d => search_tag s (here d)) (with_siblings (next_siblings e))).

Definition by_name (name : string) : strainer := mkStrainer (Some name) [] None.
Definition by_class (cls : string) : strainer := mkStrainer None [("class", cls)] None.
Definition by_name_attrs (name : string) (attrs : list (string * string)) : strainer :=
  mkStrainer (Some name) attrs None.
Definition by_name_string (name text : string) : strainer :=
  mkStrainer (Some name) [] (Some text).

(** Attribute access and subscription on a value that may be [None].  A tag
    is true as a condition whatever it contains, so [if tag:] on the result
    of a search tests it against [None]. *)
Definition getattr {A} (attribute : string) (o : option A) : result A :=
  match o with
  | Some a => Ok a
  | None => Raise (AttributeError attribute)
  end.

Definition subscript (key : string) (o : option element) : result string :=
  match o with
  | Some e => tag_item key e
  | None => Raise (TypeError "'NoneType' object is not subscriptable")
  end.

(** ** HTTP *)

Inductive method : Type := GET | POST.

Inductive form_value : Type :=
| FStr (s : string)
| FInt (z : Z)
| FNone.

Module Request.
Record t : Type := mk {
  verb : method;
  url : string;
  data : list (string * form_value)
}.
End Request.

Module Response.
(** [url] is the final location after redirects; [document] is the tree
    BeautifulSoup builds from [text]. *)
Record t : Type := mk {
  status_code : Z;
  url : string;
  document : node
}.
End Response.

Definition BeautifulSoup (response : Response.t) : element :=
  mkElement (Response.document response) [].

(** The site: the response to the newest of the requests sent so far. *)
Definition site : Type := list Request.t -> Response.t.

Record datetime : Type := mkDatetime { year : Z; month : Z }.

(** The wall clock: what the [k]-th call of [datetime.now()] returns. *)
Definition wall_clock : Type := nat -> datetime.

(** ** The client and its state *)

Inductive level : Type := INFO | WARNING.

(** The attributes of a [Gradescope] object ([logged_in] is [None] until
    [login] assigns it; [session] is the traffic of [self.session], newest
    request first), the log records emitted so far and the number of clock
    readings taken. *)
Record state : Type := mkState {
  username : option string;
  password : option string;
  session : list Request.t;
  logged_in : option bool;
  log : list (level * string);
  clock_reads : nat
}.

Definition with_session (sent : list Request.t) (st : state) : state :=
  mkState (username st) (password st) sent (logged_in st) (log st) (clock_reads st).

Definition with_logged_in (flag : option bool) (st : state) : state :=
  mkState (username st) (password st) (session st) flag (log st) (clock_reads st).

Definition with_log (records : list (level * string)) (st : state) : state :=
  mkState (username st) (password st) (session st) (logged_in st) records
    (clock_reads st).

Definition with_clock_reads (n : nat) (st : state) : state :=
  mkState (username st) (password st) (session st) (logged_in st) (log st) n.

Definition M (A : Type) : Type := state -> result A * state.

Definition ret {A} (a : A) : M A := fun st => (Ok a, st).
Definition raise {A} (e : exn) : M A := fun st => (Raise e, st).
Definition lift {A} (r : result A) : M A := fun st => (r, st).

Definition bind {A B} (m : M A) (k : A -> M B) : M B :=
  fun st =>
    match m st with
    | (Ok a, st') => k a st'
    | (Raise e, st') => (Raise e, st')
    end.

Declare Scope M_scope.
Delimit Scope M_scope with M.
Bind Scope M_scope with M.

Notation "x <- c ;; k" := (bind c (fun x => k))
  (at level 61, c at next level, right associativity) : M_scope.
Notation "c ;;; k" := (bind c (fun _ => k))
  (at level 61, right associativity) : M_scope.

Definition get_state : M state := fun st => (Ok st, st).

Definition set_logged_in (b : bool) : M unit :=
  fun st => (Ok tt, with_logged_in (Some b) st).

Definition emit (l : level) (msg : string) : M unit :=
  fun st => (Ok tt, with_log (log st ++ [(l, msg)]) st).

Definition log_info : string -> M unit := emit INFO.
Definition log_warning : string -> M unit := emit WARNING.

(** [self.logged_in]: an [AttributeError] while the attribute is unset. *)
Definition self_logged_in : M bool :=
  fun st => (getattr "logged_in" (logged_in st), st).

(** The criteria of the searches. *)
Definition token_field : strainer :=
  by_name_attrs "input" [("name", "authenticity_token")].
Definition courses_heading : strainer := by_name_string "h1" "Your Courses".
Definition course_list : strainer := by_name_attrs "div" [("class", "courseList")].
Definition assignments_table : strainer :=
  by_name_attrs "table" [("id", "assignments-student-table")].
Definition term_label : strainer := by_class "courseList--term".
Definition courses_for_term : strainer := by_class "courseList--coursesForTerm".
Definition course_box : strainer := by_class "courseBox".
Definition shortname_node : strainer := by_class "courseBox--shortname".
Definition name_node : strainer := by_class "courseBox--name".
Definition submit_control : strainer :=
  by_name_attrs "button" [("class", "js-submitAssignment")].
Definition status_cell : strainer :=
  by_name_attrs "td" [("class", "submissionStatus")].
Definition status_text : strainer :=
  by_name_attrs "div" [("class", "submissionStatus--text")].
Definition release_time : strainer :=
  by_name_attrs "time" [("class", "submissionTimeChart--releaseDate")].
Definition due_time : strainer :=
  by_name_attrs "time" [("class", "submissionTimeChart--dueDate")].

Definition dquote : string := String (ascii_of_nat 34) EmptyString.

(** [Gradescope._response_check] *)
Definition _response_check (response : Response.t) : result bool :=
  if (Response.status_code response =? 200)%Z then Ok true
  else Raise (ResponseError
                ("Failed to fetch the webpage. Status code: "
                 +:+ Str.of_Z (Response.status_code response)
                 +:+ ". URL: " +:+ Response.url response)).

(** [Gradescope._parse_int] *)
Definition _parse_int (text : string) : result Z := py_int (Str.digits_of text).

(** The [Course(...)] call in the loop of [get_courses]; the keyword
    arguments are evaluated in the order they are written. *)
Definition make_course (term_name : string) (course : element) : result Course.t :=
  let href := match tag_get "href" course with Some h => h | None => EmptyString end in
  course_id <- _parse_int (Str.last_item (Str.split "/"%char href)) ;;
  let url := tag_get "href" course in
  shortname <- getattr "get_text" (find shortname_node course) ;;
  let short_name := get_text true shortname in
  name <- getattr "get_text" (find name_node course) ;;
  let full_name := get_text true name in
  Ok (Course.mk course_id url term_name short_name full_name).

(** [course.name == 'a'] *)
Definition is_anchor (course : element) : bool :=
  match tag_name course with
  | Some name => String.eqb name "a"
  | None => false
  end.

(** The loop over the boxes of one term's container. *)
Definition collect_boxes (term_name : string) (courses_container : element)
    (courses : list Course.t) : result (list Course.t) :=
  for_each (find_all course_box courses_container)
    (fun course courses =>
       if is_anchor course
       then c <- make_course term_name course ;; Ok (courses ++ [c])
       else Ok courses)
    courses.

(** The body of the loop over the term labels. *)
Definition collect_term (term : element) (courses : list Course.t)
  : result (list Course.t) :=
  let term_name := get_text true term in
  let courses_container := find_next_sibling courses_for_term term in
  match courses_container with
  | Some container => collect_boxes term_name container courses
  | None => Ok courses
  end.

(** Lines 156-181 of the source: from the parsed root page to the courses. *)
Definition scrape_courses (soup : element) : result (list Course.t) :=
  let courses := [] in
  let current_heading := find courses_heading soup in
  match current_heading with
  | Some heading =>
      let course_lists := find_next_sibling course_list heading in
      course_lists <- getattr "find_all" course_lists ;;
      for_each (find_all term_label course_lists) collect_term courses
  | None =>
      Raise (ResponseError
               ("Cannot find heading " +:+ dquote +:+ "Your Courses" +:+ dquote))
  end.

(** The body of the loop over the rows of the assignments table. *)
Definition make_assignment (row : element) : result dict :=
  let assignment : dict := [] in
  let button := find submit_control row in
  id_text <- subscript "data-assignment-id" button ;;
  id <- py_int id_text ;;
  let assignment := dict_set "assignment_id" (VInt id) assignment in
  ready <- subscript "data-ready-for-submission" button ;;
  let assignment :=
    dict_set "ready_for_submission" (VBool (String.eqb ready "true")) assignment in
  post_url <- subscript "data-post-url" button ;;
  let assignment := dict_set "url" (VStr post_url) assignment in
  title <- subscript "data-assignment-title" button ;;
  let assignment := dict_set "title" (VStr title) assignment in
  late <- subscript "data-show-late-submission-warning" button ;;
  let assignment :=
    dict_set "late_submission_warning" (VBool (String.eqb late "true")) assignment in
  cell <- getattr "find" (find status_cell row) ;;
  status <- getattr "text" (find status_text cell) ;;
  let assignment :=
    dict_set "submission_status" (VStr (Str.strip (get_text false status)))
      assignment in
  released <- subscript "datetime" (find release_time row) ;;
  let assignment := dict_set "released_time" (VStr released) assignment in
  due <- subscript "datetime" (find due_time row) ;;
  let assignment := dict_set "due_time" (VStr due) assignment in
  Ok assignment.

(** Lines 212-228 of the source: from the parsed course page to the rows. *)
Definition scrape_assignments (soup : element) : result (list dict) :=
  let assignments_data := find assignments_table soup in
  let assignments := [] in
  table <- getattr "find" assignments_data ;;
  tbody <- getattr "find_all" (find (by_name "tbody") table) ;;
  for_each (find_all (by_name "tr") tbody)
    (fun row assignments =>
       assignment <- make_assignment row ;; Ok (assignments ++ [assignment]))
    assignments.

(** The season of [get_term_courses]. *)
Definition season_of (current_month : Z) : string :=
  if ((2 <=? current_month) && (current_month <=? 6))%Z then "Spring"
  else if ((9 <=? current_month) && (current_month <=? 12))%Z then "Fall"
  else "Summer".

(** The [data] dictionary [login] posts; a [None] token stays in it as
    [None]. *)
Definition login_form (token : option string) (username password : string)
  : list (string * form_value) :=
  [("authenticity_token", match token with Some v => FStr v | None => FNone end);
   ("session[email]", FStr username);
   ("session[password]", FStr password);
   ("session[remember_me]", FInt 0);
   ("commit", FStr "Log In");
   ("session[remember_me_sso]", FInt 0)].

(** The two requests of [login]. *)
Definition root_request : Request.t := Request.mk GET Constants.BASE_URL [].

Definition login_request (token : option string) (username password : string)
  : Request.t :=
  Request.mk POST Constants.LOGIN_URL (login_form token username password).

(** The object after the first three assignments of [__init__], in an
    environment [env] of which the log and the clock are kept. *)
Definition new_object (username password : option string) (env : state) : state :=
  mkState username password [] None (log env) (clock_reads env).

Section Client.

Variable server : site.
Variable now : wall_clock.

Local Open Scope M_scope.

(** [self.session.get(url)] and [self.session.post(url, data=data)] *)
Definition send (request : Request.t) : M Response.t :=
  fun st =>
    let sent := request :: session st in
    (Ok (server sent), with_session sent st).

Definition session_get (url : string) : M Response.t :=
  send (Request.mk GET url []).

Definition session_post (url : string) (data : list (string * form_value))
  : M Response.t :=
  send (Request.mk POST url data).

(** [datetime.now()] *)
Definition datetime_now : M datetime :=
  fun st => (Ok (now (clock_reads st)), with_clock_reads (S (clock_reads st)) st).

(** [Gradescope.login] *)
Definition login : M bool :=
  self <- get_state ;;
  match username self, password self with
  | Some username, Some password =>
      response <- session_get Constants.BASE_URL ;;
      _ <- lift (_response_check response) ;;
      let soup := BeautifulSoup response in
      let token_input := find token_field soup in
      (* the local is assigned only under [if token_input:] *)
      let authenticity_token : option (option string) :=
        match token_input with
        | Some input => Some (tag_get "value" input)
        | None => None
        end in
      token <- lift (read_local "authenticity_token" authenticity_token) ;;
      let data := login_form token username password in
      response <- session_post Constants.LOGIN_URL data ;;
      _ <- lift (_response_check response) ;;
      if Str.contains "account" (Response.url response) then
        set_logged_in true ;;; ret true
      else if Str.contains "login" (Response.url response) then
        set_logged_in false ;;; ret false
      else
        set_logged_in false ;;; raise (LoginError "Unknown return URL.")
  | _, _ => raise (TypeError "The username or password cannot be None.")
  end.

(** [Gradescope.__init__] after the assignment of the attributes.  The call
    of [log.basicConfig] only configures the logging module. *)
Definition __init__ : M unit :=
  is_logged <- login ;;
  if is_logged then log_info "[Info] Login successful."
  else log_warning "[Warning] Login failed.".

(** [Gradescope(username, password)]: the result state is the object. *)
Definition Gradescope (username password : option string) : M unit :=
  fun env => __init__ (new_object username password env).

(** [Gradescope.get_courses] *)
Definition get_courses : M (list Course.t) :=
  is_logged <- self_logged_in ;;
  if negb is_logged then raise NotLoggedInError_default
  else
    response <- session_get Constants.BASE_URL ;;
    _ <- lift (_response_check response) ;;
    let soup := BeautifulSoup response in
    courses <- lift (scrape_courses soup) ;;
    log_info ("[Info] Found " +:+ Str.of_Z (Z.of_nat (length courses))
              +:+ " courses.") ;;;
    ret courses.

(** [Gradescope.get_term_courses] *)
Definition get_term_courses : M (list Course.t) :=
  courses <- get_courses ;;
  month_reading <- datetime_now ;;
  let current_month := month month_reading in
  year_reading <- datetime_now ;;
  let current_year := year year_reading in
  let season := season_of current_month in
  let term_courses :=
    List.filter
      (fun course =>
         String.eqb (Course.term course) (season +:+ " " +:+ Str.of_Z current_year))
      courses in
  log_info ("[Info] Found " +:+ Str.of_Z (Z.of_nat (length term_courses))
            +:+ " courses for the current term.") ;;;
  ret term_courses.

(** [Gradescope.get_assignments] *)
Definition get_assignments (course : Course.t) : M (list dict) :=
  is_logged <- self_logged_in ;;
  if negb is_logged then raise NotLoggedInError_default
  else
    url <- lift (Course.get_url course) ;;
    response <- session_get url ;;
    _ <- lift (_response_check response) ;;
    let soup := BeautifulSoup response in
    lift (scrape_assignments soup).

(** The calls a holder of the object can make, and what each gives back. *)
Inductive call : Type :=
| Login
| GetCourses
| GetTermCourses
| GetAssignments (course : Course.t).

Inductive outcome : Type :=
| LoginOutcome (r : result bool)
| CoursesOutcome (r : result (list Course.t))
| AssignmentsOutcome (r : result (list dict)).

Definition perform (c : call) (st : state) : outcome * state :=
  match c with
  | Login => let '(r, st') := login st in (LoginOutcome r, st')
  | GetCourses => let '(r, st') := get_courses st in (CoursesOutcome r, st')
  | GetTermCourses => let '(r, st') := get_term_courses st in (CoursesOutcome r, st')
  | GetAssignments course =>
      let '(r, st') := get_assignments course st in (AssignmentsOutcome r, st')
  end.

(** The calls of [cs] made one after the other, with their outcomes. *)
Fixpoint perform_all (cs : list call) (st : state) : list outcome * state :=
  match cs with
  | [] => ([], st)
  | c :: rest =>
      let '(o, st') := perform c st in
      let '(os, st'') := perform_all rest st' in
      (o :: os, st'')
  end.

End Client.

(** A login succeeded when [login] returned [True]. *)
Definition is_login_success (o : outcome) : bool :=
  match o with
  | LoginOutcome (Ok true) => true
  | _ => false
  end.

(** ** What the loops compute

    The declarative reading of the two scraping loops, against which the
    loops above are compared. *)

(** One result per element, in order; the first failure is the result. *)
Fixpoint map_result {A B} (f : A -> result B) (l : list A) : result (list B) :=
  match l with
  | [] => Ok []
  | x :: rest =>
      match f x with
      | Ok y => match map_result f rest with
                | Ok ys => Ok (y :: ys)
                | Raise e => Raise e
                end
      | Raise e => Raise e
      end
  end.

(** The elements of class [courseBox] below the container that follows a
    term label, in document order, each with the label's text. *)
Definition term_boxes (term : element) : list (string * element) :=
  match find_next_sibling courses_for_term term with
  | Some container =>
      List.map (pair (get_text true term)) (find_all course_box container)
  | None => []
  end.

(** The boxes of all term labels of the course list, label after label. *)
Definition boxes_visited (course_lists : element) : list (string * element) :=
  flat_map term_boxes (find_all term_label course_lists).

Definition anchor_boxes (course_lists : element) : list (string * element) :=
  List.filter (fun tb => is_anchor (snd tb)) (boxes_visited course_lists).

Definition course_of_box (tb : string * element) : result Course.t :=
  make_course (fst tb) (snd tb).

(** The last ['/']-separated segment of a box's [href] ([''] without one). *)
Definition id_segment (course : element) : string :=
  Str.last_item
    (Str.split "/"%char
       (match tag_get "href" course with Some h => h | None => EmptyString end)).

Definition is_some {A} (o : option A) : bool :=
  match o with Some _ => true | None => false end.

(** A box has both of its name nodes. *)
Definition box_complete (course : element) : bool :=
  is_some (find shortname_node course) && is_some (find name_node course).

(** A row has its submit control, its status cell with the status text in
    it, and its two time elements. *)
Definition row_complete (row : element) : bool :=
  is_some (find submit_control row)
  && match find status_cell row with
     | Some cell => is_some (find status_text cell)
     | None => false
     end
  && is_some (find release_time row)
  && is_some (find due_time row).

(** A result that is an exception outside the client's own error classes. *)
Definition raises_builtin {A} (r : result A) : Prop :=
  exists e, r = Raise e /\ is_GradescopeError e = false.

Definition heading_missing : exn :=
  ResponseError ("Cannot find heading " +:+ dquote +:+ "Your Courses" +:+ dquote).

Definition not_subscriptable : exn :=
  TypeError "'NoneType' object is not subscriptable".

(** ** Sample pages and sites *)

Module Sample.

Definition page (body : list node) : node := Tag "[document]" [] [] body.

Definition labelled (name cls text : string) : node :=
  Tag name [cls] [] [NavigableString text].

Definition login_page : node :=
  page [Tag "form" [] [("action", "/login")]
          [Tag "input" [] [("type", "hidden"); ("name", "authenticity_token");
                           ("value", "c2VjcmV0")] []]].

Definition page_without_token : node :=
  page [Tag "form" [] [("action", "/login")] []].

Definition cs101_box : node :=
  Tag "a" ["courseBox"] [("href", "/courses/42")]
    [labelled "h3" "courseBox--shortname" "CS101";
     labelled "div" "courseBox--name" " Intro to CS "].

Definition add_course_box : node :=
  Tag "button" ["courseBox"; "courseBox-new"] [] [NavigableString "Add a course"].

Definition box_without_digits : node :=
  Tag "a" ["courseBox"] [("href", "/courses/new")]
    [labelled "h3" "courseBox--shortname" "CS102";
     labelled "div" "courseBox--name" "Data Structures"].

Definition box_without_shortname : node :=
  Tag "a" ["courseBox"] [("href", "/courses/43")]
    [labelled "div" "courseBox--name" "Data Structures"].

Definition courses_page_of (boxes : list node) : node :=
  page [Tag "h1" ["pageHeading"] [] [NavigableString "Your Courses"];
        Tag "div" ["courseList"] []
          [labelled "div" "courseList--term" "Fall 2024";
           Tag "div" ["courseList--coursesForTerm"] [] boxes]].

Definition courses_page : node := courses_page_of [cs101_box; add_course_box].

(** A term label that no courses container follows. *)
Definition page_with_orphan_term : node :=
  page [Tag "h1" [] [] [NavigableString "Your Courses"];
        Tag "div" ["courseList"] [] [labelled "div" "courseList--term" "Fall 2024"]].

Definition page_without_course_list : node :=
  page [Tag "h1" [] [] [NavigableString "Your Courses"]].

Definition assignment_row : node :=
  Tag "tr" [] []
    [Tag "th" [] []
       [Tag "button" ["js-submitAssignment"]
          [("data-assignment-id", "7"); ("data-ready-for-submission", "true");
           ("data-post-url", "/courses/42/assignments/7/submissions");
           ("data-assignment-title", "Homework 1");
           ("data-show-late-submission-warning", "false")]
          [NavigableString "Homework 1"]];
     Tag "td" ["submissionStatus"] []
       [labelled "div" "submissionStatus--text" " No Submission "];
     Tag "td" [] []
       [Tag "time" ["submissionTimeChart--releaseDate"]
          [("datetime", "2024-09-01 00:00:00 -0700")] [];
        Tag "time" ["submissionTimeChart--dueDate"]
          [("datetime", "2024-09-08 23:59:00 -0700")] []]].

Definition row_without_button : node :=
  Tag "tr" [] [] [Tag "th" [] [] [NavigableString "Homework 2"]].

Definition assignments_page_of (rows : list node) : node :=
  page [Tag "table" [] [("id", "assignments-student-table")]
          [Tag "thead" [] [] []; Tag "tbody" [] [] rows]].

Definition ok (url : string) (document : node) : Response.t :=
  Response.mk 200 url document.

(** A site that answers the [k]-th request it receives with the [k]-th
    response of a script, and with [fallback] after the script's end. *)
Definition scripted (script : list Response.t) (fallback : Response.t) : site :=
  fun sent => List.nth (length sent - 1) script fallback.

Definition not_found : Response.t :=
  Response.mk 404 "https://www.gradescope.com/404" (page []).

Definition root : Response.t := ok "https://www.gradescope.com/" login_page.

(** A site on which the login redirects to [final_url]. *)
Definition site_redirecting_to (final_url : string) : site :=
  scripted [root; ok final_url (page [])] (ok "https://www.gradescope.com/" courses_page).

Definition accepting_site : site :=
  site_redirecting_to "https://www.gradescope.com/account".
Definition rejecting_site : site :=
  site_redirecting_to "https://www.gradescope.com/login".

(** A site that redirects every request to a status page. *)
Definition site_under_maintenance : site :=
  fun _ => Response.mk 503 "https://status.gradescope.com/" (page []).

(** A site whose login redirects to a URL with both words in it. *)
Definition site_with_return_path : site :=
  site_redirecting_to "https://www.gradescope.com/login?return_to=/account".

Definition site_without_token : site :=
  scripted [ok "https://www.gradescope.com/" page_without_token]
    (ok "https://www.gradescope.com/account" (page [])).

Definition env0 : state := mkState None None [] None [] 0.

Definition alice : state :=
  new_object (Some "alice@example.edu") (Some "hunter2") env0.

(** An object whose login has succeeded, about to send its next request. *)
Definition logged_in_object : state :=
  mkState (Some "alice@example.edu") (Some "hunter2") [] (Some true) [] 0.

Definition serving (document : node) : site :=
  fun _ => ok "https://www.gradescope.com/" document.

Definition clock0 : wall_clock := fun _ => mkDatetime 2024 10.

Definition course42 : Course.t :=
  Course.mk 42 (Some "/courses/42") "Fall 2024" "CS101" "Intro to CS".

End Sample.

(** A message shows a response when it contains its status code, in decimal,
    and its URL. *)
Definition shows (response : Response.t) (msg : string) : Prop :=
  Str.contains (Str.of_Z (Response.status_code response)) msg = true /\
  Str.contains (Response.url response) msg = true.

(** ** The operations left as stubs

    [get_past_submissions], [get_assignment_grades] and [download_file] have
    [pass] as body: they return [None] and touch nothing. *)
Definition get_past_submissions {C A : Type} (course : C) (assignment : A) : M unit :=
  ret tt.
Definition get_assignment_grades {C A : Type} (course : C) (assignment : A) : M unit :=
  ret tt.
Definition download_file (url path : string) : M unit := ret tt.

(** ** Vocabulary of the further properties *)

(** The characters [urlsplit] gives a meaning to, or drops: controls and
    the space, and the delimiters of the scheme, the query, the fragment and
    the parameters. *)
Definition url_special (c : ascii) : bool :=
  (Str.code c <=? 32) || Ascii.eqb c ":"%char || Ascii.eqb c "?"%char
  || Ascii.eqb c "#"%char || Ascii.eqb c ";"%char.

Definition dot_segment (segment : string) : bool :=
  String.eqb segment "." || String.eqb segment "..".

(** An absolute path of plain segments: it starts with one slash, has none
    of the special characters and no segment [.] or [..]. *)
Definition plain_path (s : string) : bool :=
  Str.startswith "/" s && negb (Str.startswith "//" s)
  && Str.forallb (fun c => negb (url_special c)) s
  && List.forallb (fun segment => negb (dot_segment segment)) (Str.split "/"%char s).

(** The [dict] a row gives: the eight keys in the order they are assigned,
    with the values read off the row's submit control, status text and
    time elements. *)
Definition row_gives (row : element) (assignment : dict) : Prop :=
  exists button cell status id_text id ready post_url title late released due,
    find submit_control row = Some button /\
    tag_get "data-assignment-id" button = Some id_text /\
    py_int id_text = Ok id /\
    tag_get "data-ready-for-submission" button = Some ready /\
    tag_get "data-post-url" button = Some post_url /\
    tag_get "data-assignment-title" button = Some title /\
    tag_get "data-show-late-submission-warning" button = Some late /\
    find status_cell row = Some cell /\
    find status_text cell = Some status /\
    subscript "datetime" (find release_time row) = Ok released /\
    subscript "datetime" (find due_time row) = Ok due /\
    assignment =
      [("assignment_id", VInt id);
       ("ready_for_submission", VBool (String.eqb ready "true"));
       ("url", VStr post_url);
       ("title", VStr title);
       ("late_submission_warning", VBool (String.eqb late "true"));
       ("submission_status", VStr (Str.strip (get_text false status)));
       ("released_time", VStr released);
       ("due_time", VStr due)].

(** The requests an object with given credentials is seen to send: a GET
    without form data, or the POST of its credentials to the login URL. *)
Definition expected_request (username password : option string) (r : Request.t)
  : Prop :=
  (Request.verb r = GET /\ Request.data r = []) \/
  (exists token u p,
      username = Some u /\ password = Some p /\ r = login_request token u p).

Definition is_retrieval (c : call) : bool :=
  match c with
  | Login => false
  | _ => true
  end.

(** The label [get_term_courses] compares the terms with, from the month of
    one clock reading and the year of the next. *)
Definition term_label_at (now : wall_clock) (reads : nat) : string :=
  season_of (month (now reads)) +:+ " " +:+ Str.of_Z (year (now (S reads))).

(** What a call may do to the state: it keeps the credentials, puts at most
    [bound] requests, all of them expected, before those already sent,
    appends records to the log and lets the clock readings grow. *)
Definition grows (bound : nat) (st st' : state) : Prop :=
  username st' = username st /\
  password st' = password st /\
  (exists new,
      session st' = new ++ session st /\
      length new <= bound /\
      Forall (expected_request (username st) (password st)) new) /\
  (exists records, log st' = log st ++ records) /\
  clock_reads st <= clock_reads st'.

(** A text that is empty or starts with a character outside [f]. *)
Definition starts_outside (f : ascii -> bool) (s : string) : bool :=
  match s with
  | EmptyString => true
  | String c _ => negb (f c)
  end.

(** ** Pages off the usual layout *)

Module Unusual.

(** Two term labels in a row, and one courses container after them. *)
Definition page_with_shared_container : node :=
  Sample.page
    [Tag "h1" [] [] [NavigableString "Your Courses"];
     Tag "div" ["courseList"] []
       [Sample.labelled "div" "courseList--term" "Fall 2024";
        Sample.labelled "div" "courseList--term" "Spring 2025";
        Tag "div" ["courseList--coursesForTerm"] [] [Sample.cs101_box]]].

(** An anchor box that is in the course list but in no courses container. *)
Definition page_with_stray_box : node :=
  Sample.page
    [Tag "h1" [] [] [NavigableString "Your Courses"];
     Tag "div" ["courseList"] []
       [Sample.labelled "div" "courseList--term" "Fall 2024";
        Tag "div" ["courseList--coursesForTerm"] [] [];
        Sample.cs101_box]].

(** The anchors of class [courseBox] anywhere in a page, in document order. *)
Definition anchor_boxes_of (document : node) : list element :=
  List.filter is_anchor (find_all course_box (mkElement document [])).

End Unusual.

(** * Properties *)

(** ** Strings *)

Lemma startswith_iff (p s : string) :
  Str.startswith p s = true <-> exists r, s = p +:+ r.
Proof.
  revert s. induction p as [| a p IH]; intros s; simpl.
  - split; [intros _; exists s; reflexivity | reflexivity].
  - destruct s as [| b s].
    + split; [discriminate | intros [r H]; discriminate].
    + rewrite andb_true_iff, Ascii.eqb_eq, IH. split.
      * intros [-> [r ->]]. exists r. reflexivity.
      * intros [r H]. injection H as -> ->. split; [reflexivity | exists r; reflexivity].
Qed.

(** [Str.contains] decides the occurrence of a substring. *)
Lemma contains_iff (sub s : string) :
  Str.contains sub s = true <-> exists a b, s = a +:+ sub +:+ b.
Proof.
  induction s as [| c s IH].
  - simpl. rewrite orb_false_r, startswith_iff. split.
    + intros [r H]. exists EmptyString, r. exact H.
    + intros [a [b H]]. destruct a; [exists b; exact H | discriminate].
  - cbn [Str.contains]. rewrite orb_true_iff, startswith_iff, IH. split.
    + intros [[r H] | [a [b H]]].
      * exists EmptyString, r. exact H.
      * exists (String c a), b. simpl. rewrite H. reflexivity.
    + intros [a [b H]]. destruct a as [| c' a].
      * left. exists b. exact H.
      * right. simpl in H. injection H as _ H. exists a, b. exact H.
Qed.

Lemma contains_app (sub a b : string) : Str.contains sub (a +:+ sub +:+ b) = true.
Proof. apply contains_iff. exists a, b. reflexivity. Qed.

Lemma append_assoc (a b c : string) : (a +:+ b) +:+ c = a +:+ b +:+ c.
Proof. induction a; simpl; [reflexivity | rewrite IHa; reflexivity]. Qed.

Lemma append_empty_r (a : string) : a +:+ EmptyString = a.
Proof. induction a; simpl; [reflexivity | rewrite IHa; reflexivity]. Qed.

Lemma contains_suffix (sub a : string) : Str.contains sub (a +:+ sub) = true.
Proof.
  apply contains_iff. exists a, EmptyString. rewrite append_empty_r. reflexivity.
Qed.

(** ** [_response_check] *)

Lemma response_check_ok (response : Response.t) :
  Response.status_code response = 200%Z -> _response_check response = Ok true.
Proof. intros H. unfold _response_check. rewrite H. reflexivity. Qed.

(** The message of a failed check shows the status code and the URL of the
    response. *)
Lemma response_check_fails (response : Response.t) :
  Response.status_code response <> 200%Z ->
  exists msg,
    _response_check response = Raise (ResponseError msg) /\
    Str.contains (Str.of_Z (Response.status_code response)) msg = true /\
    Str.contains (Response.url response) msg = true.
Proof.
  intros H. unfold _response_check.
  destruct (Z.eqb_spec (Response.status_code response) 200) as [E | _];
    [contradiction |].
  eexists. split; [reflexivity |]. split.
  - apply contains_app.
  - rewrite <- append_assoc, <- append_assoc. apply contains_suffix.
Qed.

(** ** [login] *)

Section Login.

Variable server : site.

Lemma login_without_credentials (st : state) :
  username st = None \/ password st = None ->
  login server st =
    (Raise (TypeError "The username or password cannot be None."), st).
Proof.
  intros H. unfold login, bind, get_state, raise.
  destruct (username st), (password st), H; try discriminate; reflexivity.
Qed.

Lemma login_root_refused (st : state) (u p : string) :
  username st = Some u -> password st = Some p ->
  let sent := root_request :: session st in
  Response.status_code (server sent) <> 200%Z ->
  exists msg,
    _response_check (server sent) = Raise (ResponseError msg) /\
    login server st = (Raise (ResponseError msg), with_session sent st).
Proof.
  intros Hu Hp sent Hs.
  destruct (response_check_fails _ Hs) as [msg [Hm _]].
  exists msg. split; [exact Hm |].
  unfold login, bind, get_state, session_get, send, lift.
  rewrite Hu, Hp. fold root_request. fold sent. rewrite Hm. reflexivity.
Qed.

(** Without the token field the local [authenticity_token] is read before
    any assignment: the POST is never sent. *)
Lemma login_without_token (st : state) (u p : string) :
  username st = Some u -> password st = Some p ->
  let sent := root_request :: session st in
  Response.status_code (server sent) = 200%Z ->
  find token_field (BeautifulSoup (server sent)) = None ->
  login server st =
    (Raise (UnboundLocalError "authenticity_token"), with_session sent st).
Proof.
  intros Hu Hp sent Hs Ht.
  unfold login, bind, get_state, session_get, send, lift.
  rewrite Hu, Hp. fold root_request. fold sent.
  rewrite (response_check_ok _ Hs), Ht. reflexivity.
Qed.

(** The run of [login] once the root page was served with its token field. *)
Lemma login_posts (st : state) (u p : string) (input : element) :
  username st = Some u -> password st = Some p ->
  let sent1 := root_request :: session st in
  Response.status_code (server sent1) = 200%Z ->
  find token_field (BeautifulSoup (server sent1)) = Some input ->
  let sent2 := login_request (tag_get "value" input) u p :: sent1 in
  let final := server sent2 in
  login server st =
    match _response_check final with
    | Raise e => (Raise e, with_session sent2 st)
    | Ok _ =>
        if Str.contains "account" (Response.url final)
        then (Ok true, with_logged_in (Some true) (with_session sent2 st))
        else if Str.contains "login" (Response.url final)
        then (Ok false, with_logged_in (Some false) (with_session sent2 st))
        else (Raise (LoginError "Unknown return URL."),
              with_logged_in (Some false) (with_session sent2 st))
    end.
Proof.
  intros Hu Hp sent1 Hs Ht sent2 final.
  unfold login, bind, get_state, session_get, session_post, send, lift.
  rewrite Hu, Hp. fold root_request. fold sent1.
  rewrite (response_check_ok _ Hs), Ht. cbn [read_local].
  cbn [session with_session]. fold (login_request (tag_get "value" input) u p).
  fold sent2. fold final.
  destruct (_response_check final); [| reflexivity].
  destruct (Str.contains "account" (Response.url final)); [reflexivity |].
  destruct (Str.contains "login" (Response.url final)); reflexivity.
Qed.

(** Whatever the site does, a [login] that returns has set the flag to what
    it returns, and one that raises has left it alone or cleared it. *)
Lemma login_flag (st : state) :
  match login server st with
  | (Ok b, st') => logged_in st' = Some b
  | (Raise _, st') => logged_in st' = logged_in st \/ logged_in st' = Some false
  end.
Proof.
  destruct (username st) as [u |] eqn:Hu;
    [destruct (password st) as [p |] eqn:Hp |].
  - set (sent := root_request :: session st).
    destruct (Z.eq_dec (Response.status_code (server sent)) 200) as [Hs | Hs].
    + destruct (find token_field (BeautifulSoup (server sent))) as [input |] eqn:Ht.
      * rewrite (login_posts st u p input Hu Hp Hs Ht).
        destruct (_response_check _); [| left; reflexivity].
        destruct (Str.contains "account" _); [reflexivity |].
        destruct (Str.contains "login" _); [reflexivity | right; reflexivity].
      * rewrite (login_without_token st u p Hu Hp Hs Ht). left. reflexivity.
    + destruct (login_root_refused st u p Hu Hp Hs) as [msg [_ ->]].
      left. reflexivity.
  - rewrite login_without_credentials by (right; exact Hp). left. reflexivity.
  - rewrite login_without_credentials by (left; exact Hu). left. reflexivity.
Qed.

End Login.

(** ** The retrieval operations *)

Section Retrieval.

Variable server : site.
Variable now : wall_clock.

Lemma get_courses_logged_out (st : state) :
  logged_in st = Some false ->
  get_courses server st = (Raise NotLoggedInError_default, st).
Proof.
  intros H. unfold get_courses, bind, self_logged_in. rewrite H. reflexivity.
Qed.

Lemma get_term_courses_logged_out (st : state) :
  logged_in st = Some false ->
  get_term_courses server now st = (Raise NotLoggedInError_default, st).
Proof.
  intros H. unfold get_term_courses, bind.
  rewrite (get_courses_logged_out st H). reflexivity.
Qed.

Lemma get_assignments_logged_out (course : Course.t) (st : state) :
  logged_in st = Some false ->
  get_assignments server course st = (Raise NotLoggedInError_default, st).
Proof.
  intros H. unfold get_assignments, bind, self_logged_in. rewrite H. reflexivity.
Qed.

(** Logged in, [get_courses] fetches the root page, checks the response and
    returns what the scraping of the page gives. *)
Lemma get_courses_logged_in (st : state) :
  logged_in st = Some true ->
  let sent := root_request :: session st in
  let st' := with_session sent st in
  get_courses server st =
    match _response_check (server sent) with
    | Raise e => (Raise e, st')
    | Ok _ =>
        match scrape_courses (BeautifulSoup (server sent)) with
        | Raise e => (Raise e, st')
        | Ok courses =>
            (Ok courses,
             with_log (log st ++ [(INFO, "[Info] Found "
                                         +:+ Str.of_Z (Z.of_nat (length courses))
                                         +:+ " courses.")]) st')
        end
    end.
Proof.
  intros H sent st'.
  unfold get_courses, bind, self_logged_in, session_get, send, lift.
  rewrite H. cbn [getattr negb]. fold root_request. fold sent. fold st'.
  destruct (_response_check (server sent)); [| reflexivity].
  destruct (scrape_courses _); reflexivity.
Qed.

Lemma get_assignments_logged_in (course : Course.t) (url : string) (st : state) :
  logged_in st = Some true ->
  Course.get_url course = Ok url ->
  let sent := Request.mk GET url [] :: session st in
  let st' := with_session sent st in
  get_assignments server course st =
    match _response_check (server sent) with
    | Raise e => (Raise e, st')
    | Ok _ => (scrape_assignments (BeautifulSoup (server sent)), st')
    end.
Proof.
  intros H Hurl sent st'.
  unfold get_assignments, bind, self_logged_in, session_get, send, lift.
  rewrite H, Hurl. cbn [getattr negb]. fold sent. fold st'.
  destruct (_response_check (server sent)); reflexivity.
Qed.

(** A call that is not a successful login leaves a logged-out object
    logged out. *)
Lemma perform_stays_logged_out (c : call) (st : state) :
  logged_in st = Some false ->
  is_login_success (fst (perform server now c st)) = false ->
  logged_in (snd (perform server now c st)) = Some false.
Proof.
  intros H Hno. destruct c; cbn [perform] in *.
  - pose proof (login_flag server st) as Hflag.
    destruct (login server st) as [[[|] | e] st']; cbn in *.
    + discriminate.
    + exact Hflag.
    + destruct Hflag as [-> | ->]; [exact H | reflexivity].
  - rewrite (get_courses_logged_out st H). exact H.
  - rewrite (get_term_courses_logged_out st H). exact H.
  - rewrite (get_assignments_logged_out course st H). exact H.
Qed.

Lemma perform_all_stays_logged_out (cs : list call) (st : state) :
  logged_in st = Some false ->
  existsb is_login_success (fst (perform_all server now cs st)) = false ->
  logged_in (snd (perform_all server now cs st)) = Some false.
Proof.
  revert st. induction cs as [| c cs IH]; intros st H Hno; [exact H |].
  cbn [perform_all] in *.
  pose proof (perform_stays_logged_out c st H) as Hstep.
  destruct (perform server now c st) as [o st1]. cbn [fst snd] in Hstep.
  specialize (IH st1).
  destruct (perform_all server now cs st1) as [os st2]. cbn [fst snd] in *.
  apply orb_false_iff in Hno as [Ho Hos]. auto.
Qed.

(** An object whose constructor returned has its flag set to what the
    constructor's [login] returned. *)
Lemma constructed_flag (u p : option string) (env obj : state) :
  Gradescope server u p env = (Ok tt, obj) ->
  exists b, fst (login server (new_object u p env)) = Ok b /\
            logged_in obj = Some b.
Proof.
  unfold Gradescope, __init__, bind. intros H.
  pose proof (login_flag server (new_object u p env)) as Hflag.
  destruct (login server (new_object u p env)) as [[b | e] st1];
    [| discriminate].
  exists b. split; [reflexivity |].
  destruct b; cbn in H; injection H as <-; exact Hflag.
Qed.

End Retrieval.

(** ** Integers from text *)

Lemma digit_code (c : ascii) :
  Str.isdigit c = true -> 48 <= Str.code c <= 57.
Proof.
  unfold Str.isdigit. intros H. apply andb_true_iff in H as [H1 H2].
  apply Nat.leb_le in H1. apply Nat.leb_le in H2. lia.
Qed.

Lemma digit_not_space (c : ascii) : Str.isdigit c = true -> Str.c_isspace c = false.
Proof.
  intros H. apply digit_code in H. unfold Str.c_isspace.
  apply orb_false_iff. split.
  - apply andb_false_iff. right. apply Nat.leb_gt. lia.
  - apply Nat.eqb_neq. lia.
Qed.

Lemma digit_not_char (c d : ascii) :
  Str.isdigit c = true -> Str.isdigit d = false -> Ascii.eqb c d = false.
Proof.
  intros Hc Hd. destruct (Ascii.eqb_spec c d) as [-> |]; [congruence | reflexivity].
Qed.

Lemma filter_all (f : ascii -> bool) (s : string) :
  Str.forallb f (Str.filter f s) = true.
Proof.
  induction s as [| c s IH]; [reflexivity |]. simpl.
  destruct (f c) eqn:E; [simpl; rewrite E; exact IH | exact IH].
Qed.

Lemma filter_id (f : ascii -> bool) (s : string) :
  Str.forallb f s = true -> Str.filter f s = s.
Proof.
  induction s as [| c s IH]; [reflexivity |]. simpl. intros H.
  apply andb_true_iff in H as [-> H]. rewrite IH by exact H. reflexivity.
Qed.

Lemma rev_onto_rev_onto (s a b : string) :
  Str.rev_onto (Str.rev_onto s a) b = Str.rev_onto a (s +:+ b).
Proof.
  revert a b. induction s as [| c s IH]; intros a b; [reflexivity |].
  simpl. rewrite IH. reflexivity.
Qed.

Lemma rev_involutive (s : string) : Str.rev (Str.rev s) = s.
Proof.
  unfold Str.rev. rewrite rev_onto_rev_onto. simpl. apply append_empty_r.
Qed.

Lemma forallb_rev_onto (f : ascii -> bool) (s a : string) :
  Str.forallb f (Str.rev_onto s a) = Str.forallb f s && Str.forallb f a.
Proof.
  revert a. induction s as [| c s IH]; intros a; [reflexivity |].
  simpl. rewrite IH. simpl. destruct (f c), (Str.forallb f s); reflexivity.
Qed.

(** Stripping removes nothing from a text none of whose characters is
    stripped. *)
Lemma lstrip_none (f g : ascii -> bool) (s : string) :
  (forall c, g c = true -> f c = false) ->
  Str.forallb g s = true -> Str.lstrip_by f s = s.
Proof.
  intros Hfg. destruct s as [| c s]; [reflexivity |]. simpl. intros H.
  apply andb_true_iff in H as [H _]. rewrite (Hfg c H). reflexivity.
Qed.

Lemma rstrip_none (f g : ascii -> bool) (s : string) :
  (forall c, g c = true -> f c = false) ->
  Str.forallb g s = true -> Str.rstrip_by f s = s.
Proof.
  intros Hfg H. unfold Str.rstrip_by.
  rewrite (lstrip_none f g) by
    (try exact Hfg; unfold Str.rev; rewrite forallb_rev_onto, H; reflexivity).
  apply rev_involutive.
Qed.

Lemma valid_digits_all (prev : bool) (s : string) :
  Str.forallb Str.isdigit s = true ->
  valid_digits prev s = prev || negb (Str.is_empty s).
Proof.
  revert prev. induction s as [| c s IH]; intros prev H.
  - simpl. rewrite orb_false_r. reflexivity.
  - simpl in *. apply andb_true_iff in H as [Hc H]. rewrite Hc, IH by exact H.
    simpl. rewrite orb_true_r. reflexivity.
Qed.

(** [int] on a text made of digits only: the empty text and a text of more
    digits than the interpreter converts are refused, every other one has
    the value of its digits. *)
Lemma py_int_of_digits (d : string) :
  Str.forallb Str.isdigit d = true ->
  py_int d =
    if Str.is_empty d || negb (String.length d <=? int_max_str_digits)
    then Raise (ValueError d)
    else Ok (Str.digits_value 0 d).
Proof.
  intros H. unfold py_int.
  rewrite (lstrip_none Str.c_isspace Str.isdigit d digit_not_space H).
  rewrite (rstrip_none Str.c_isspace Str.isdigit d digit_not_space H).
  destruct d as [| c d]; [reflexivity |].
  pose proof H as H'. simpl in H'. apply andb_true_iff in H' as [Hc _].
  rewrite (digit_not_char c "-"%char Hc eq_refl).
  rewrite (digit_not_char c "+"%char Hc eq_refl).
  unfold Str.digits_of. rewrite (filter_id _ _ H).
  rewrite (valid_digits_all false _ H). cbn [Str.is_empty negb orb andb].
  destruct (String.length (String c d) <=? int_max_str_digits); reflexivity.
Qed.

(** [_parse_int] gives the value of the digits of its text, and raises
    [ValueError] on a text without a digit. *)
Lemma parse_int_value (text : string) (n : Z) :
  _parse_int text = Ok n ->
  Str.digits_of text <> EmptyString /\
  n = Str.digits_value 0 (Str.digits_of text).
Proof.
  unfold _parse_int. rewrite py_int_of_digits by apply filter_all.
  destruct (Str.digits_of text) as [| c d] eqn:E; [discriminate |].
  cbn [Str.is_empty orb].
  destruct (negb _); [discriminate |]. intros [= <-]. split; [discriminate | reflexivity].
Qed.

Lemma parse_int_no_digit (text : string) :
  Str.digits_of text = EmptyString ->
  _parse_int text = Raise (ValueError EmptyString).
Proof.
  intros E. unfold _parse_int. rewrite E. reflexivity.
Qed.

(** ** Loops that append one item per element *)

Section MapResult.

Context {A B : Type}.
Variable f : A -> result B.

Lemma map_result_app (l1 l2 : list A) :
  map_result f (l1 ++ l2) =
    match map_result f l1 with
    | Ok ys1 => match map_result f l2 with
                | Ok ys2 => Ok (ys1 ++ ys2)
                | Raise e => Raise e
                end
    | Raise e => Raise e
    end.
Proof.
  induction l1 as [| x l1 IH]; simpl.
  - destruct (map_result f l2); reflexivity.
  - destruct (f x); [| reflexivity]. rewrite IH.
    destruct (map_result f l1); [| reflexivity].
    destruct (map_result f l2); reflexivity.
Qed.

Lemma map_result_ok (l : list A) (ys : list B) :
  map_result f l = Ok ys -> Forall2 (fun x y => f x = Ok y) l ys.
Proof.
  revert ys. induction l as [| x l IH]; simpl; intros ys H.
  - injection H as <-. constructor.
  - destruct (f x) as [y |] eqn:Ex; [| discriminate].
    destruct (map_result f l) as [ys' |]; [| discriminate].
    injection H as <-. constructor; [exact Ex | apply IH; reflexivity].
Qed.

Lemma map_result_length (l : list A) (ys : list B) :
  map_result f l = Ok ys -> length ys = length l.
Proof.
  intros H. apply map_result_ok in H. symmetry. eapply Forall2_length. exact H.
Qed.

(** The exception of the loop is that of the first element on which the
    body raises. *)
Lemma map_result_first_failure (pre post : list A) (x : A) (ys : list B) (e : exn) :
  map_result f pre = Ok ys -> f x = Raise e ->
  map_result f (pre ++ x :: post) = Raise e.
Proof.
  intros Hpre Hx. rewrite map_result_app, Hpre. simpl. rewrite Hx. reflexivity.
Qed.

Lemma map_result_raise (l : list A) (e : exn) :
  map_result f l = Raise e -> exists x, In x l /\ f x = Raise e.
Proof.
  induction l as [| x l IH]; simpl; [discriminate |]. intros H.
  destruct (f x) as [y |] eqn:Ex.
  - destruct (map_result f l); [discriminate |].
    destruct (IH H) as [x' [Hin Hx']]. exists x'. auto.
  - exists x. split; [left; reflexivity | congruence].
Qed.

Lemma map_result_in_raise (l : list A) (x : A) (e : exn) :
  In x l -> f x = Raise e -> exists e', map_result f l = Raise e'.
Proof.
  induction l as [| x' l IH]; simpl; [contradiction |].
  intros [-> | Hin] Hx.
  - rewrite Hx. eauto.
  - destruct (f x'); [| eauto].
    destruct (IH Hin Hx) as [e' ->]. eauto.
Qed.

Lemma map_result_all_ok (l : list A) :
  Forall (fun x => exists y, f x = Ok y) l -> exists ys, map_result f l = Ok ys.
Proof.
  induction 1 as [| x l [y Hy] _ [ys IH]]; simpl; [eauto |].
  rewrite Hy, IH. eauto.
Qed.

(** A [for] loop that appends [f x] for every [x] computes [map_result]. *)
Lemma for_each_append (l : list A) (acc : list B) :
  for_each l (fun x acc => y <- f x ;; Ok (acc ++ [y])) acc =
    match map_result f l with
    | Ok ys => Ok (acc ++ ys)
    | Raise e => Raise e
    end.
Proof.
  revert acc. induction l as [| x l IH]; intros acc; simpl.
  - rewrite app_nil_r. reflexivity.
  - destruct (f x) as [y |]; [| reflexivity]. simpl. rewrite IH.
    destruct (map_result f l); [| reflexivity].
    rewrite <- app_assoc. reflexivity.
Qed.

(** The same loop under a test: the elements that fail it are skipped. *)
Lemma for_each_append_if (keep : A -> bool) (l : list A) (acc : list B) :
  for_each l
    (fun x acc => if keep x then y <- f x ;; Ok (acc ++ [y]) else Ok acc) acc =
    match map_result f (List.filter keep l) with
    | Ok ys => Ok (acc ++ ys)
    | Raise e => Raise e
    end.
Proof.
  revert acc. induction l as [| x l IH]; intros acc; simpl.
  - rewrite app_nil_r. reflexivity.
  - destruct (keep x); simpl; [| apply IH].
    destruct (f x) as [y |]; [| reflexivity]. simpl. rewrite IH.
    destruct (map_result f _); [| reflexivity].
    rewrite <- app_assoc. reflexivity.
Qed.

End MapResult.

Lemma map_result_map {A B C : Type} (g : A -> B) (f : B -> result C) (l : list A) :
  map_result f (List.map g l) = map_result (fun x => f (g x)) l.
Proof.
  induction l as [| x l IH]; simpl; [reflexivity |]. rewrite IH. reflexivity.
Qed.

Lemma filter_map_comm {A B : Type} (g : A -> B) (p : B -> bool) (l : list A) :
  List.filter p (List.map g l) = List.map g (List.filter (fun x => p (g x)) l).
Proof.
  induction l as [| x l IH]; simpl; [reflexivity |].
  destruct (p (g x)); simpl; rewrite IH; reflexivity.
Qed.

(** ** The course list *)

Lemma collect_boxes_spec (term_name : string) (container : element)
    (courses : list Course.t) :
  collect_boxes term_name container courses =
    match map_result (make_course term_name)
            (List.filter is_anchor (find_all course_box container)) with
    | Ok cs => Ok (courses ++ cs)
    | Raise e => Raise e
    end.
Proof. unfold collect_boxes. apply for_each_append_if. Qed.

Lemma collect_term_spec (term : element) (courses : list Course.t) :
  collect_term term courses =
    match map_result course_of_box
            (List.filter (fun tb => is_anchor (snd tb)) (term_boxes term)) with
    | Ok cs => Ok (courses ++ cs)
    | Raise e => Raise e
    end.
Proof.
  unfold collect_term, term_boxes.
  destruct (find_next_sibling _ term) as [container |].
  - rewrite collect_boxes_spec, filter_map_comm, map_result_map. reflexivity.
  - simpl. rewrite app_nil_r. reflexivity.
Qed.

Lemma collect_terms_spec (terms : list element) (courses : list Course.t) :
  for_each terms collect_term courses =
    match map_result course_of_box
            (List.filter (fun tb => is_anchor (snd tb)) (flat_map term_boxes terms)) with
    | Ok cs => Ok (courses ++ cs)
    | Raise e => Raise e
    end.
Proof.
  revert courses. induction terms as [| t terms IH]; intros courses; simpl.
  - rewrite app_nil_r. reflexivity.
  - rewrite collect_term_spec, filter_app, map_result_app.
    destruct (map_result course_of_box (List.filter _ (term_boxes t)));
      [| reflexivity].
    simpl. rewrite IH.
    destruct (map_result course_of_box _); [| reflexivity].
    rewrite app_assoc. reflexivity.
Qed.

(** The nested loops of [get_courses] build one course per anchor among the
    boxes they visit, in the order of the visit. *)
Lemma scrape_courses_spec (soup : element) :
  scrape_courses soup =
    match find courses_heading soup with
    | None =>
        Raise (ResponseError
                 ("Cannot find heading " +:+ dquote +:+ "Your Courses" +:+ dquote))
    | Some heading =>
        match find_next_sibling course_list heading with
        | None => Raise (AttributeError "find_all")
        | Some course_lists => map_result course_of_box (anchor_boxes course_lists)
        end
    end.
Proof.
  unfold scrape_courses.
  destruct (find courses_heading soup) as [heading |]; [| reflexivity].
  destruct (find_next_sibling course_list heading) as [cl |]; [| reflexivity].
  cbn [getattr rbind]. rewrite collect_terms_spec.
  unfold anchor_boxes, boxes_visited.
  destruct (map_result course_of_box _); reflexivity.
Qed.

(** ** The assignments table *)

Lemma scrape_assignments_spec (soup : element) :
  scrape_assignments soup =
    match find assignments_table soup with
    | None => Raise (AttributeError "find")
    | Some table =>
        match find (by_name "tbody") table with
        | None => Raise (AttributeError "find_all")
        | Some tbody => map_result make_assignment (find_all (by_name "tr") tbody)
        end
    end.
Proof.
  unfold scrape_assignments.
  destruct (find assignments_table soup) as [table |]; [| reflexivity].
  cbn [getattr rbind].
  destruct (find (by_name "tbody") table) as [tbody |]; [| reflexivity].
  cbn [getattr rbind]. rewrite for_each_append.
  destruct (map_result make_assignment _); reflexivity.
Qed.

(** ** One box, one row *)

(** A course that was built has the [href] of its box as URL and the value
    of the digits of its last segment, of which there is at least one, as
    identifier. *)
Lemma make_course_ok (term_name : string) (course : element) (c : Course.t) :
  make_course term_name course = Ok c ->
  exists href,
    tag_get "href" course = Some href /\
    Course.url c = Some href /\
    Str.digits_of (id_segment course) <> EmptyString /\
    Course.course_id c = Str.digits_value 0 (Str.digits_of (id_segment course)) /\
    Course.term c = term_name /\
    box_complete course = true.
Proof.
  unfold make_course, box_complete. fold (id_segment course).
  destruct (_parse_int (id_segment course)) as [n |] eqn:En; [| discriminate].
  cbn [rbind]. apply parse_int_value in En as [Hd Hn].
  destruct (tag_get "href" course) as [href |] eqn:Eh.
  - destruct (find shortname_node course); [| discriminate].
    destruct (find name_node course); [| discriminate].
    cbn. intros [= <-]. exists href. cbn. repeat split; auto.
  - exfalso. apply Hd. unfold id_segment. rewrite Eh. reflexivity.
Qed.

Lemma make_course_no_digit (term_name : string) (course : element) :
  Str.digits_of (id_segment course) = EmptyString ->
  make_course term_name course = Raise (ValueError EmptyString).
Proof.
  intros H. unfold make_course. fold (id_segment course).
  rewrite (parse_int_no_digit _ H). reflexivity.
Qed.

Lemma make_course_incomplete (term_name : string) (course : element) (n : Z) :
  _parse_int (id_segment course) = Ok n ->
  box_complete course = false ->
  make_course term_name course = Raise (AttributeError "get_text").
Proof.
  intros Hn. unfold make_course, box_complete. fold (id_segment course).
  rewrite Hn. cbn [rbind].
  destruct (find shortname_node course); [| reflexivity].
  destruct (find name_node course); [discriminate | reflexivity].
Qed.

Lemma py_int_error (text : string) (e : exn) :
  py_int text = Raise e -> is_GradescopeError e = false.
Proof.
  unfold py_int.
  destruct (Str.rstrip_by _ _) as [| c r].
  - destruct (_ && _); [discriminate | intros [= <-]; reflexivity].
  - destruct (Ascii.eqb c "-"); [| destruct (Ascii.eqb c "+")];
      destruct (_ && _); try discriminate; intros [= <-]; reflexivity.
Qed.

Lemma getattr_error {A} (attribute : string) (o : option A) (e : exn) :
  getattr attribute o = Raise e -> is_GradescopeError e = false.
Proof. destruct o; [discriminate | intros [= <-]; reflexivity]. Qed.

Lemma subscript_error (key : string) (o : option element) (e : exn) :
  subscript key o = Raise e -> is_GradescopeError e = false.
Proof.
  destruct o as [t |]; [| intros [= <-]; reflexivity].
  unfold subscript, tag_item. destruct (tag_get key t); [discriminate |].
  intros [= <-]. reflexivity.
Qed.

(** The body of either loop raises no exception of the client's classes. *)
Lemma make_course_error (term_name : string) (course : element) (e : exn) :
  make_course term_name course = Raise e -> is_GradescopeError e = false.
Proof.
  unfold make_course, _parse_int.
  destruct (py_int _) eqn:E1; cbn [rbind];
    [| intros [= <-]; eapply py_int_error; exact E1].
  destruct (getattr "get_text" (find shortname_node course)) eqn:E2; cbn [rbind];
    [| intros [= <-]; eapply getattr_error; exact E2].
  destruct (getattr "get_text" (find name_node course)) eqn:E3; cbn [rbind];
    [discriminate | intros [= <-]; eapply getattr_error; exact E3].
Qed.

Ltac step_row :=
  match goal with
  | |- context [rbind (subscript ?k ?o) _] =>
      let E := fresh "E" in
      destruct (subscript k o) eqn:E; cbn [rbind];
      [| intros [= <-]; eapply subscript_error; exact E]
  | |- context [rbind (py_int ?t) _] =>
      let E := fresh "E" in
      destruct (py_int t) eqn:E; cbn [rbind];
      [| intros [= <-]; eapply py_int_error; exact E]
  | |- context [rbind (getattr ?a ?o) _] =>
      let E := fresh "E" in
      destruct (getattr a o) eqn:E; cbn [rbind];
      [| intros [= <-]; eapply getattr_error; exact E]
  end.

Lemma make_assignment_error (row : element) (e : exn) :
  make_assignment row = Raise e -> is_GradescopeError e = false.
Proof.
  unfold make_assignment. repeat step_row. discriminate.
Qed.

Lemma make_assignment_ok (row : element) (assignment : dict) :
  make_assignment row = Ok assignment -> row_complete row = true.
Proof.
  unfold make_assignment, row_complete.
  destruct (find submit_control row) as [button |]; [| discriminate].
  destruct (subscript "data-assignment-id" _); [| discriminate]. cbn [rbind].
  destruct (py_int _); [| discriminate]. cbn [rbind].
  destruct (subscript "data-ready-for-submission" _); [| discriminate]. cbn [rbind].
  destruct (subscript "data-post-url" _); [| discriminate]. cbn [rbind].
  destruct (subscript "data-assignment-title" _); [| discriminate]. cbn [rbind].
  destruct (subscript "data-show-late-submission-warning" _); [| discriminate].
  cbn [rbind].
  destruct (find status_cell row) as [cell |]; [| discriminate]. cbn [rbind getattr].
  destruct (find status_text cell); [| discriminate]. cbn [rbind getattr].
  destruct (find release_time row); [| discriminate].
  destruct (subscript "datetime" _); [| discriminate]. cbn [rbind].
  destruct (find due_time row); [| discriminate].
  reflexivity.
Qed.

Lemma make_assignment_incomplete (row : element) :
  row_complete row = false -> raises_builtin (make_assignment row).
Proof.
  intros H. destruct (make_assignment row) as [a | e] eqn:E.
  - apply make_assignment_ok in E. congruence.
  - exists e. split; [reflexivity | eapply make_assignment_error; exact E].
Qed.

Lemma make_assignment_no_button (row : element) :
  find submit_control row = None -> make_assignment row = Raise not_subscriptable.
Proof. intros H. unfold make_assignment. rewrite H. reflexivity. Qed.

(** A loop one of whose elements makes the body raise an exception outside
    the client's classes raises such an exception. *)
Lemma map_result_builtin {A B : Type} (f : A -> result B) (l : list A) (x : A) :
  (forall y e, f y = Raise e -> is_GradescopeError e = false) ->
  In x l -> (exists e, f x = Raise e) -> raises_builtin (map_result f l).
Proof.
  intros Hf Hin [e He].
  destruct (map_result_in_raise f l x e Hin He) as [e' He'].
  exists e'. split; [exact He' |].
  destruct (map_result_raise f l e' He') as [y [_ Hy]]. eapply Hf. exact Hy.
Qed.

(** ** The scenarios of the specification *)

Example scenario_one_course :
  fst (get_courses (Sample.serving Sample.courses_page) Sample.logged_in_object)
  = Ok [Course.mk 42 (Some "/courses/42") "Fall 2024" "CS101" "Intro to CS"].
Proof. vm_compute. reflexivity. Qed.

Example scenario_current_term :
  fst (get_term_courses (Sample.serving Sample.courses_page) Sample.clock0
         Sample.logged_in_object)
  = Ok [Sample.course42].
Proof. vm_compute. reflexivity. Qed.

Example scenario_one_assignment :
  fst (get_assignments
         (Sample.serving (Sample.assignments_page_of [Sample.assignment_row]))
         Sample.course42 Sample.logged_in_object)
  = Ok [[("assignment_id", VInt 7); ("ready_for_submission", VBool true);
         ("url", VStr "/courses/42/assignments/7/submissions");
         ("title", VStr "Homework 1"); ("late_submission_warning", VBool false);
         ("submission_status", VStr "No Submission");
         ("released_time", VStr "2024-09-01 00:00:00 -0700");
         ("due_time", VStr "2024-09-08 23:59:00 -0700")]].
Proof. vm_compute. reflexivity. Qed.

Example scenario_construction :
  Gradescope Sample.accepting_site (Some "alice@example.edu") (Some "hunter2")
    Sample.env0
  = (Ok tt,
     mkState (Some "alice@example.edu") (Some "hunter2")
       [login_request (Some "c2VjcmV0") "alice@example.edu" "hunter2"; root_request]
       (Some true) [(INFO, "[Info] Login successful.")] 0).
Proof. vm_compute. reflexivity. Qed.

Example scenario_urljoin :
  urllib.urljoin Constants.BASE_URL "assignments/../courses/./7?page=2#top"
  = Ok "https://www.gradescope.com/courses/7?page=2#top" /\
  urllib.urljoin Constants.BASE_URL "http://example.org/x" = Ok "http://example.org/x" /\
  urllib.urljoin Constants.BASE_URL "//cdn.gradescope.com/a;b" =
    Ok "https://cdn.gradescope.com/a;b".
Proof. vm_compute. repeat split. Qed.

Example scenario_int :
  py_int " +1_000 " = Ok 1000%Z /\ py_int "-07" = Ok (-7)%Z /\
  py_int "1__0" = Raise (ValueError "1__0") /\ py_int EmptyString = Raise (ValueError EmptyString) /\
  _parse_int "cs-101b" = Ok 101%Z.
Proof. vm_compute. repeat split. Qed.

(** * The claims *)

(** ** Record helpers *)

(** C8.  A course stored with the relative URL [/courses/123] has
    [https://www.gradescope.com/courses/123] as [get_url()], and an
    assignment stored with [/courses/123/assignments/456] has
    [https://www.gradescope.com/courses/123/assignments/456/scores.csv] as
    [get_grades_url()], whatever their other fields are. *)
Theorem url_helpers_on_relative_urls :
  (forall (id : Z) (term short_name full_name : string),
      Course.get_url (Course.mk id (Some "/courses/123") term short_name full_name)
      = Ok "https://www.gradescope.com/courses/123") /\
  (forall (id : Z) (ready late : bool) (title status released due : string),
      Assignment.get_grades_url
        (Assignment.mk id ready "/courses/123/assignments/456" title late status
           released due)
      = Ok "https://www.gradescope.com/courses/123/assignments/456/scores.csv").
Proof. split; intros; vm_compute; reflexivity. Qed.

(** ** Login *)

(** C1, as amended.  Once both responses of [login] have status 200 and the
    root page has its token field, the outcome is decided by the final URL
    of the POST response alone, the word "account" being looked for first:
    a URL containing "account" gives [True] and sets the flag; a URL
    containing "login" but not "account" gives [False] and clears the flag;
    a URL containing neither clears the flag and raises
    [LoginError("Unknown return URL.")]. *)
Theorem login_classifies_final_url
    (server : site) (st : state) (u p : string) (input : element) :
  username st = Some u -> password st = Some p ->
  let sent1 := root_request :: session st in
  Response.status_code (server sent1) = 200%Z ->
  find token_field (BeautifulSoup (server sent1)) = Some input ->
  let sent2 := login_request (tag_get "value" input) u p :: sent1 in
  let final := server sent2 in
  Response.status_code final = 200%Z ->
  let after flag := with_logged_in (Some flag) (with_session sent2 st) in
  (Str.contains "account" (Response.url final) = true ->
   login server st = (Ok true, after true)) /\
  (Str.contains "account" (Response.url final) = false ->
   Str.contains "login" (Response.url final) = true ->
   login server st = (Ok false, after false)) /\
  (Str.contains "account" (Response.url final) = false ->
   Str.contains "login" (Response.url final) = false ->
   login server st = (Raise (LoginError "Unknown return URL."), after false)).
Proof.
  intros Hu Hp sent1 Hs Ht sent2 final Hf after.
  pose proof (login_posts server st u p input Hu Hp Hs Ht) as Hrun.
  cbv zeta in Hrun. fold sent1 sent2 final in Hrun.
  rewrite (response_check_ok _ Hf) in Hrun.
  repeat split.
  - intros Ha. rewrite Hrun, Ha. reflexivity.
  - intros Ha Hl. rewrite Hrun, Ha, Hl. reflexivity.
  - intros Ha Hl. rewrite Hrun, Ha, Hl. reflexivity.
Qed.

Lemma login_classifies_final_url_witness :
  fst (login Sample.rejecting_site Sample.alice) = Ok false /\
  logged_in (snd (login Sample.rejecting_site Sample.alice)) = Some false.
Proof.
  rewrite (proj1 (proj2
    (login_classifies_final_url Sample.rejecting_site Sample.alice
       "alice@example.edu" "hunter2" _ eq_refl eq_refl eq_refl eq_refl eq_refl))
    eq_refl eq_refl).
  split; reflexivity.
Defined.

(** C1, as stated, fails on a final URL in which both words occur: it
    contains "login", and [login] returns [True] with the flag set. *)
Lemma login_final_url_with_both_words :
  let server := Sample.site_with_return_path in
  let run := login server Sample.alice in
  Str.contains "login" (Response.url (server (session (snd run)))) = true /\
  fst run = Ok true /\
  fst run <> Ok false /\
  logged_in (snd run) = Some true.
Proof. vm_compute. repeat split. discriminate. Qed.

(** C5.  On a root page without the token field, [login] stops with
    [UnboundLocalError] on its local [authenticity_token]: the only request
    sent is the GET of the root page, the credentials are never posted. *)
Theorem login_without_token_field :
  login Sample.site_without_token Sample.alice =
    (Raise (UnboundLocalError "authenticity_token"),
     with_session [root_request] Sample.alice).
Proof.
  apply (login_without_token Sample.site_without_token Sample.alice
           "alice@example.edu" "hunter2"); reflexivity.
Qed.

(** ** Construction *)

(** The run of the constructor on two strings, whatever they are. *)
Lemma construction_on_strings (server : site) (u p : string) (env : state) :
  let st0 := new_object (Some u) (Some p) env in
  let sent1 := [root_request] in
  Gradescope server (Some u) (Some p) env =
    match _response_check (server sent1) with
    | Raise e => (Raise e, with_session sent1 st0)
    | Ok _ =>
        match find token_field (BeautifulSoup (server sent1)) with
        | None =>
            (Raise (UnboundLocalError "authenticity_token"), with_session sent1 st0)
        | Some input =>
            let sent2 := login_request (tag_get "value" input) u p :: sent1 in
            match _response_check (server sent2) with
            | Raise e => (Raise e, with_session sent2 st0)
            | Ok _ =>
                if Str.contains "account" (Response.url (server sent2)) then
                  (Ok tt,
                   with_log (log env ++ [(INFO, "[Info] Login successful.")])
                     (with_logged_in (Some true) (with_session sent2 st0)))
                else if Str.contains "login" (Response.url (server sent2)) then
                  (Ok tt,
                   with_log (log env ++ [(WARNING, "[Warning] Login failed.")])
                     (with_logged_in (Some false) (with_session sent2 st0)))
                else
                  (Raise (LoginError "Unknown return URL."),
                   with_logged_in (Some false) (with_session sent2 st0))
            end
        end
    end.
Proof.
  intros st0 sent1.
  unfold Gradescope, __init__, login, bind, get_state, session_get, session_post,
    send, lift.
  fold st0. cbn [username password session st0 new_object].
  fold root_request. fold sent1.
  destruct (_response_check (server sent1)); [| reflexivity].
  destruct (find token_field (BeautifulSoup (server sent1))) as [input |];
    [| reflexivity].
  cbn [read_local with_session session].
  fold (login_request (tag_get "value" input) u p).
  destruct (_response_check _); [| reflexivity].
  destruct (Str.contains "account" _); [reflexivity |].
  destruct (Str.contains "login" _); reflexivity.
Qed.

(** C3, as amended.  Constructing the client with [None] as username or as
    password raises [TypeError("The username or password cannot be None.")]
    before anything is sent.  An empty string is not an absent one: for
    every pair of strings the constructor raises no [TypeError], its first
    request is the GET of the root page, and, once that page has come with
    status 200 and its token field, the two strings are posted as they are
    and the outcome is decided by the response to that POST alone. *)
Theorem construction_checks_for_None (server : site) (env : state) :
  (forall u p : option string,
      u = None \/ p = None ->
      Gradescope server u p env =
        (Raise (TypeError "The username or password cannot be None."),
         new_object u p env)) /\
  (forall u p : string,
      let run := Gradescope server (Some u) (Some p) env in
      let st0 := new_object (Some u) (Some p) env in
      (forall msg, fst run <> Raise (TypeError msg)) /\
      (exists later, session (snd run) = later ++ [root_request]) /\
      (forall input,
          Response.status_code (server [root_request]) = 200%Z ->
          find token_field (BeautifulSoup (server [root_request])) = Some input ->
          let sent := [login_request (tag_get "value" input) u p; root_request] in
          run =
            match _response_check (server sent) with
            | Raise e => (Raise e, with_session sent st0)
            | Ok _ =>
                if Str.contains "account" (Response.url (server sent)) then
                  (Ok tt,
                   with_log (log env ++ [(INFO, "[Info] Login successful.")])
                     (with_logged_in (Some true) (with_session sent st0)))
                else if Str.contains "login" (Response.url (server sent)) then
                  (Ok tt,
                   with_log (log env ++ [(WARNING, "[Warning] Login failed.")])
                     (with_logged_in (Some false) (with_session sent st0)))
                else
                  (Raise (LoginError "Unknown return URL."),
                   with_logged_in (Some false) (with_session sent st0))
            end)).
Proof.
  split.
  - intros u p H. unfold Gradescope, __init__, bind.
    rewrite login_without_credentials; [reflexivity |].
    destruct H as [-> | ->]; [left | right]; reflexivity.
  - intros u p run st0. subst run.
    pose proof (construction_on_strings server u p env) as Hrun.
    cbv zeta in Hrun. fold st0 in Hrun.
    assert (Hcheck : forall response e,
               _response_check response = Raise e ->
               forall msg, e <> TypeError msg).
    { intros response e. unfold _response_check.
      destruct (_ =? _)%Z; [discriminate |]. intros [= <-] msg. discriminate. }
    split; [| split].
    + intros msg. rewrite Hrun.
      destruct (_response_check (server [root_request])) as [ok1 | e1] eqn:E1.
      * destruct (find token_field _) as [input |];
          [| cbn [fst]; intros H; discriminate H].
        destruct (_response_check (server (login_request _ _ _ :: _)))
          as [ok2 | e2] eqn:E2.
        -- destruct (Str.contains "account" _);
             [cbn [fst]; intros H; discriminate H |].
           destruct (Str.contains "login" _); cbn [fst]; intros H; discriminate H.
        -- cbn [fst]. intros [= ->]. exact (Hcheck _ _ E2 msg eq_refl).
      * cbn [fst]. intros [= ->]. exact (Hcheck _ _ E1 msg eq_refl).
    + rewrite Hrun.
      destruct (_response_check (server [root_request]));
        [| exists []; reflexivity].
      destruct (find token_field _) as [input |]; [| exists []; reflexivity].
      exists [login_request (tag_get "value" input) u p].
      destruct (_response_check (server (login_request _ _ _ :: _)));
        [| reflexivity].
      destruct (Str.contains "account" _); [reflexivity |].
      destruct (Str.contains "login" _); reflexivity.
    + intros input Hs Ht sent. rewrite Hrun, (response_check_ok _ Hs), Ht.
      reflexivity.
Qed.

Lemma construction_checks_for_None_witness :
  fst (Gradescope Sample.accepting_site None (Some "hunter2") Sample.env0) =
    Raise (TypeError "The username or password cannot be None.") /\
  fst (Gradescope Sample.accepting_site (Some EmptyString) (Some EmptyString)
         Sample.env0) = Ok tt.
Proof.
  split.
  - rewrite (proj1 (construction_checks_for_None Sample.accepting_site Sample.env0)
               None (Some "hunter2") (or_introl eq_refl)).
    reflexivity.
  - rewrite (proj2 (proj2
               (proj2 (construction_checks_for_None Sample.accepting_site
                         Sample.env0) EmptyString EmptyString))
               _ eq_refl eq_refl).
    vm_compute. reflexivity.
Defined.

(** C3, as stated, fails twice: empty credentials are accepted, and the
    exception raised for a missing one is a [TypeError]. *)
Lemma construction_with_absent_credentials :
  fst (Gradescope Sample.accepting_site (Some EmptyString) (Some EmptyString) Sample.env0) = Ok tt /\
  exists e,
    fst (Gradescope Sample.accepting_site None (Some "hunter2") Sample.env0) = Raise e /\
    exn_class e = "TypeError" /\
    exn_class e <> "InvalidCredentialsError".
Proof.
  split; [vm_compute; reflexivity |].
  eexists. split; [vm_compute; reflexivity |]. split; [reflexivity | discriminate].
Qed.

(** C4, as amended.  With two strings as credentials, construction follows
    [login]: when [login] returns, construction succeeds, the flag holds
    what [login] returned and one record is logged (info for [True],
    warning for [False]); when [login] raises, the exception leaves the
    constructor. *)
Theorem construction_follows_login (server : site) (u p : string) (env : state) :
  match login server (new_object (Some u) (Some p) env) with
  | (Ok b, st1) =>
      logged_in st1 = Some b /\
      Gradescope server (Some u) (Some p) env =
        (Ok tt,
         with_log (log st1 ++ [if b then (INFO, "[Info] Login successful.")
                               else (WARNING, "[Warning] Login failed.")]) st1)
  | (Raise e, st1) =>
      Gradescope server (Some u) (Some p) env = (Raise e, st1)
  end.
Proof.
  pose proof (login_flag server (new_object (Some u) (Some p) env)) as Hflag.
  unfold Gradescope, __init__, bind.
  destruct (login server (new_object (Some u) (Some p) env)) as [[b | e] st1].
  - split; [exact Hflag |]. destruct b; reflexivity.
  - reflexivity.
Qed.

(** C4, as stated, fails when the site answers the root page with a status
    other than 200: the constructor raises [ResponseError]. *)
Lemma construction_on_failing_site :
  fst (Gradescope Sample.site_under_maintenance
         (Some "alice@example.edu") (Some "hunter2") Sample.env0) =
    Raise (ResponseError
             "Failed to fetch the webpage. Status code: 503. URL: https://status.gradescope.com/").
Proof. vm_compute. reflexivity. Qed.

(** ** Responses with a status other than 200 *)

Lemma response_check_refuses (response : Response.t) :
  Response.status_code response <> 200%Z ->
  exists msg, _response_check response = Raise (ResponseError msg) /\
              shows response msg.
Proof.
  intros H. destruct (response_check_fails response H) as [msg [H1 [H2 H3]]].
  exists msg. split; [exact H1 | split; assumption].
Qed.

(** C7, as amended.  On each of the fetches of [login], [get_courses]
    (hence [get_term_courses]) and [get_assignments], a response whose
    status is not 200 makes the operation raise a [ResponseError] whose
    message contains the status code and the URL of the response, which is
    the location the request ended at after redirects. *)
Theorem failed_fetch_raises_response_error
    (server : site) (now : wall_clock) (st : state) :
  (forall u p,
      username st = Some u -> password st = Some p ->
      let response := server (root_request :: session st) in
      Response.status_code response <> 200%Z ->
      exists msg,
        fst (login server st) = Raise (ResponseError msg) /\ shows response msg) /\
  (forall u p input,
      username st = Some u -> password st = Some p ->
      let sent1 := root_request :: session st in
      Response.status_code (server sent1) = 200%Z ->
      find token_field (BeautifulSoup (server sent1)) = Some input ->
      let response := server (login_request (tag_get "value" input) u p :: sent1) in
      Response.status_code response <> 200%Z ->
      exists msg,
        fst (login server st) = Raise (ResponseError msg) /\ shows response msg) /\
  (logged_in st = Some true ->
   let response := server (root_request :: session st) in
   Response.status_code response <> 200%Z ->
   exists msg,
     fst (get_courses server st) = Raise (ResponseError msg) /\
     fst (get_term_courses server now st) = Raise (ResponseError msg) /\
     shows response msg) /\
  (forall course url,
      logged_in st = Some true -> Course.get_url course = Ok url ->
      let response := server (Request.mk GET url [] :: session st) in
      Response.status_code response <> 200%Z ->
      exists msg,
        fst (get_assignments server course st) = Raise (ResponseError msg) /\
        shows response msg).
Proof.
  split; [| split; [| split]].
  - intros u p Hu Hp response Hs.
    destruct (response_check_refuses response Hs) as [msg [Hm Hshows]].
    destruct (login_root_refused server st u p Hu Hp Hs) as [msg' [Hm' Hl]].
    fold response in Hm'. rewrite Hm in Hm'. injection Hm' as <-.
    exists msg. rewrite Hl. split; [reflexivity | exact Hshows].
  - intros u p input Hu Hp sent1 Hs1 Ht response Hs.
    destruct (response_check_refuses response Hs) as [msg [Hm Hshows]].
    exists msg. split; [| exact Hshows].
    rewrite (login_posts server st u p input Hu Hp Hs1 Ht).
    fold sent1. fold response. rewrite Hm. reflexivity.
  - intros Hin response Hs.
    destruct (response_check_refuses response Hs) as [msg [Hm Hshows]].
    exists msg.
    assert (Hc : get_courses server st =
                 (Raise (ResponseError msg),
                  with_session (root_request :: session st) st)).
    { rewrite (get_courses_logged_in server st Hin). fold response.
      rewrite Hm. reflexivity. }
    split; [rewrite Hc; reflexivity | split; [| exact Hshows]].
    unfold get_term_courses, bind. rewrite Hc. reflexivity.
  - intros course url Hin Hurl response Hs.
    destruct (response_check_refuses response Hs) as [msg [Hm Hshows]].
    exists msg. split; [| exact Hshows].
    rewrite (get_assignments_logged_in server course url st Hin Hurl).
    fold response. rewrite Hm. reflexivity.
Qed.

Lemma failed_fetch_raises_response_error_witness :
  exists msg,
    fst (get_courses Sample.site_under_maintenance Sample.logged_in_object)
    = Raise (ResponseError msg) /\
    Str.contains "503" msg = true /\
    Str.contains "https://status.gradescope.com/" msg = true.
Proof.
  destruct (proj1 (proj2 (proj2
    (failed_fetch_raises_response_error Sample.site_under_maintenance
       Sample.clock0 Sample.logged_in_object))) eq_refl)
    as [msg [H [_ [H1 H2]]]].
  - vm_compute. discriminate.
  - exists msg. split; [exact H | split; [exact H1 | exact H2]].
Defined.

(** C7, as stated, fails when the request was redirected: the message names
    the location of the response, not the URL that was requested. *)
Lemma response_error_names_final_url :
  let run := login Sample.site_under_maintenance Sample.alice in
  session (snd run) = [root_request] /\
  exists msg,
    fst run = Raise (ResponseError msg) /\
    Str.contains (Request.url root_request) msg = false.
Proof.
  split; [vm_compute; reflexivity |].
  eexists. split; vm_compute; reflexivity.
Qed.

(** ** Retrieval without a login *)

(** C2.  Take an object whose constructor returned without its login
    succeeding, and make any calls on it none of which is a [login] that
    returns [True].  Then [get_courses], [get_term_courses] and
    [get_assignments] raise [NotLoggedInError] and leave the state as it
    was: nothing is sent. *)
Theorem retrieval_requires_login
    (server : site) (now : wall_clock) (u p : option string) (env obj : state)
    (calls : list call) (outcomes : list outcome) (st : state) :
  Gradescope server u p env = (Ok tt, obj) ->
  fst (login server (new_object u p env)) <> Ok true ->
  perform_all server now calls obj = (outcomes, st) ->
  existsb is_login_success outcomes = false ->
  get_courses server st = (Raise NotLoggedInError_default, st) /\
  get_term_courses server now st = (Raise NotLoggedInError_default, st) /\
  (forall course,
      get_assignments server course st = (Raise NotLoggedInError_default, st)).
Proof.
  intros Hobj Hfirst Hcalls Hnone.
  assert (Hout : logged_in st = Some false).
  { destruct (constructed_flag server u p env obj Hobj) as [[|] [Hb Hflag]];
      [contradiction |].
    pose proof (perform_all_stays_logged_out server now calls obj Hflag) as H.
    rewrite Hcalls in H. apply H. exact Hnone. }
  repeat split.
  - apply get_courses_logged_out. exact Hout.
  - apply get_term_courses_logged_out. exact Hout.
  - intros course. apply get_assignments_logged_out. exact Hout.
Qed.

Lemma retrieval_requires_login_witness :
  let server := Sample.rejecting_site in
  let obj :=
    snd (Gradescope server (Some "alice@example.edu") (Some "hunter2") Sample.env0) in
  let st := snd (perform_all server Sample.clock0 [GetCourses; Login] obj) in
  get_courses server st = (Raise (NotLoggedInError "Not logged in."), st).
Proof.
  intros server obj st.
  apply (retrieval_requires_login server Sample.clock0
           (Some "alice@example.edu") (Some "hunter2") Sample.env0 obj
           [GetCourses; Login]
           (fst (perform_all server Sample.clock0 [GetCourses; Login] obj)) st).
  - vm_compute. reflexivity.
  - vm_compute. discriminate.
  - vm_compute. reflexivity.
  - vm_compute. reflexivity.
Defined.

(** ** Scraping the course list *)

Lemma get_courses_scrapes (server : site) (st : state) :
  logged_in st = Some true ->
  Response.status_code (server (root_request :: session st)) = 200%Z ->
  fst (get_courses server st) =
    scrape_courses (BeautifulSoup (server (root_request :: session st))).
Proof.
  intros Hin Hs. rewrite (get_courses_logged_in server st Hin).
  rewrite (response_check_ok _ Hs). destruct (scrape_courses _); reflexivity.
Qed.

Lemma get_assignments_scrapes
    (server : site) (course : Course.t) (url : string) (st : state) :
  logged_in st = Some true ->
  Course.get_url course = Ok url ->
  Response.status_code (server (Request.mk GET url [] :: session st)) = 200%Z ->
  fst (get_assignments server course st) =
    scrape_assignments (BeautifulSoup (server (Request.mk GET url [] :: session st))).
Proof.
  intros Hin Hurl Hs. rewrite (get_assignments_logged_in server course url st Hin Hurl).
  rewrite (response_check_ok _ Hs). reflexivity.
Qed.

(** Courses are returned only by a logged-in object on a response of
    status 200, and then they are what the scraping gave. *)
Lemma get_courses_returns (server : site) (st st' : state) (courses : list Course.t) :
  get_courses server st = (Ok courses, st') ->
  scrape_courses (BeautifulSoup (server (root_request :: session st))) = Ok courses.
Proof.
  destruct (logged_in st) as [[|] |] eqn:Hin.
  - rewrite (get_courses_logged_in server st Hin).
    destruct (_response_check _); [| discriminate].
    destruct (scrape_courses _); [| discriminate].
    intros [= <- _]. reflexivity.
  - rewrite (get_courses_logged_out server st Hin). discriminate.
  - unfold get_courses, bind, self_logged_in. rewrite Hin. discriminate.
Qed.

Lemma flat_map_nil {A B : Type} (f : A -> list B) (l : list A) :
  (forall x, In x l -> f x = []) -> flat_map f l = [].
Proof.
  induction l as [| x l IH]; simpl; intros H; [reflexivity |].
  rewrite (H x) by (left; reflexivity). apply IH. intros y Hy. apply H. right. exact Hy.
Qed.

(** C10, as amended.  The loop over the elements of class [courseBox] of a
    container appends one course per anchor among them, in document order,
    and passes over the others without building anything and without
    failing.  So, on a root page with its heading and course list,
    [get_courses] returns one course per anchor among the boxes it visits,
    in the order of the visit: term label after term label, and for each
    label the boxes of the first courses container that follows it, in
    document order.  A container that follows two labels is visited twice,
    and a box under no such container is not visited; the call succeeds as
    soon as every visited anchor yields a course. *)
Theorem courses_are_the_anchor_boxes
    (server : site) (st : state) (heading course_lists : element) :
  logged_in st = Some true ->
  let response := server (root_request :: session st) in
  Response.status_code response = 200%Z ->
  find courses_heading (BeautifulSoup response) = Some heading ->
  find_next_sibling course_list heading = Some course_lists ->
  let anchors :=
    List.filter (fun tb => is_anchor (snd tb)) (boxes_visited course_lists) in
  (forall term_name container courses,
      collect_boxes term_name container courses =
        match map_result (make_course term_name)
                (List.filter is_anchor (find_all course_box container)) with
        | Ok built => Ok (courses ++ built)
        | Raise e => Raise e
        end) /\
  fst (get_courses server st) = map_result course_of_box anchors /\
  (forall courses,
      fst (get_courses server st) = Ok courses ->
      length courses = length anchors /\
      Forall2 (fun tb c => course_of_box tb = Ok c) anchors courses) /\
  (Forall (fun tb => exists c, course_of_box tb = Ok c) anchors ->
   exists courses, fst (get_courses server st) = Ok courses).
Proof.
  intros Hin response Hs Hh Hcl anchors.
  assert (Hrun : fst (get_courses server st) = map_result course_of_box anchors).
  { rewrite (get_courses_scrapes server st Hin Hs), scrape_courses_spec.
    fold response. rewrite Hh, Hcl. reflexivity. }
  split; [exact collect_boxes_spec | split; [exact Hrun | split]].
  - intros courses Hc. rewrite Hrun in Hc. split.
    + eapply map_result_length. exact Hc.
    + apply map_result_ok. exact Hc.
  - intros Hall. rewrite Hrun. apply map_result_all_ok. exact Hall.
Qed.

Lemma courses_are_the_anchor_boxes_witness :
  fst (get_courses (Sample.serving Sample.courses_page) Sample.logged_in_object)
  = Ok [Sample.course42].
Proof.
  rewrite (proj1 (proj2
    (courses_are_the_anchor_boxes (Sample.serving Sample.courses_page)
       Sample.logged_in_object _ _ eq_refl eq_refl eq_refl eq_refl))).
  vm_compute. reflexivity.
Defined.

(** C10, as stated, fails on pages off the usual layout: a page with one
    anchor box in a container that follows two term labels gives two
    courses, one per label, and a page whose only anchor box is in no
    courses container gives none. *)
Lemma one_anchor_box_twice_or_never :
  length (Unusual.anchor_boxes_of Unusual.page_with_shared_container) = 1 /\
  fst (get_courses (Sample.serving Unusual.page_with_shared_container)
         Sample.logged_in_object)
  = Ok [Course.mk 42 (Some "/courses/42") "Fall 2024" "CS101" "Intro to CS";
        Course.mk 42 (Some "/courses/42") "Spring 2025" "CS101" "Intro to CS"] /\
  length (Unusual.anchor_boxes_of Unusual.page_with_stray_box) = 1 /\
  fst (get_courses (Sample.serving Unusual.page_with_stray_box)
         Sample.logged_in_object)
  = Ok [].
Proof. vm_compute. repeat split. Qed.

(** C9.  Every course [get_courses] returns has the [href] of its anchor as
    URL and, as identifier, the value of the digits of the last segment of
    that [href], which has at least one digit.  An anchor whose last
    segment has no digit makes the loop body raise [ValueError]: the call
    raises, with that very exception when the anchors before it were
    built. *)
Theorem course_ids_come_from_digits (server : site) (st : state) :
  (forall courses st',
      get_courses server st = (Ok courses, st') ->
      Forall (fun c =>
                exists href,
                  Course.url c = Some href /\
                  let segment := Str.last_item (Str.split "/"%char href) in
                  Str.digits_of segment <> EmptyString /\
                  Course.course_id c = Str.digits_value 0 (Str.digits_of segment))
             courses) /\
  (forall term_name course,
      Str.digits_of (id_segment course) = EmptyString ->
      make_course term_name course = Raise (ValueError EmptyString)) /\
  (forall heading course_lists,
      logged_in st = Some true ->
      let response := server (root_request :: session st) in
      Response.status_code response = 200%Z ->
      find courses_heading (BeautifulSoup response) = Some heading ->
      find_next_sibling course_list heading = Some course_lists ->
      forall before tb after,
        anchor_boxes course_lists = before ++ tb :: after ->
        Str.digits_of (id_segment (snd tb)) = EmptyString ->
        (exists e, fst (get_courses server st) = Raise e) /\
        ((exists built, map_result course_of_box before = Ok built) ->
         fst (get_courses server st) = Raise (ValueError EmptyString))).
Proof.
  split; [| split].
  - intros courses st' Hrun. apply get_courses_returns in Hrun.
    rewrite scrape_courses_spec in Hrun.
    destruct (find courses_heading _) as [heading |]; [| discriminate].
    destruct (find_next_sibling course_list heading) as [cl |]; [| discriminate].
    apply map_result_ok in Hrun.
    induction Hrun as [| tb c boxes courses Htb _ IH]; constructor; [| exact IH].
    destruct (make_course_ok _ _ _ Htb) as [href [Hh [Hu [Hd [Hid _]]]]].
    exists href. split; [exact Hu |]. unfold id_segment in Hd, Hid.
    rewrite Hh in Hd, Hid. split; assumption.
  - intros term_name course. apply make_course_no_digit.
  - intros heading cl Hin response Hs Hh Hcl before tb after Hsplit Hd.
    assert (Hrun : fst (get_courses server st) =
                   map_result course_of_box (anchor_boxes cl)).
    { rewrite (get_courses_scrapes server st Hin Hs), scrape_courses_spec.
      fold response. rewrite Hh, Hcl. reflexivity. }
    assert (Htb : course_of_box tb = Raise (ValueError EmptyString))
      by (apply make_course_no_digit; exact Hd).
    rewrite Hrun, Hsplit. split.
    + eapply map_result_in_raise; [| exact Htb]. apply in_elt.
    + intros [built Hb]. eapply map_result_first_failure; eassumption.
Qed.

Lemma course_ids_come_from_digits_witness :
  let server := Sample.serving (Sample.courses_page_of [Sample.box_without_digits]) in
  fst (get_courses server Sample.logged_in_object) = Raise (ValueError EmptyString).
Proof.
  intros server.
  refine (proj2
    (proj2 (proj2 (course_ids_come_from_digits server Sample.logged_in_object))
       _ _ eq_refl eq_refl eq_refl eq_refl [] _ [] eq_refl eq_refl)
    (ex_intro _ [] eq_refl)).
Defined.

(** ** Missing landmarks *)

(** C6, as amended.  Only the heading is reported with [ResponseError].
    On the root page, a missing course list container raises
    [AttributeError]; a term label that no courses container follows is
    passed over without an error; an anchor box without its short name or
    its name node makes the call raise an exception outside the client's
    classes, which is [AttributeError] when the identifier was parsed.  On
    a course page, a missing table or table body raises [AttributeError],
    and a row without its submit control, status cell, status text or one
    of its time elements makes the call raise an exception outside the
    client's classes, which is [TypeError] for the submit control. *)
Theorem missing_landmarks_raise (server : site) (st : state) :
  logged_in st = Some true ->
  (let response := server (root_request :: session st) in
   let soup := BeautifulSoup response in
   Response.status_code response = 200%Z ->
   (find courses_heading soup = None ->
    fst (get_courses server st) = Raise heading_missing) /\
   (forall heading,
       find courses_heading soup = Some heading ->
       (find_next_sibling course_list heading = None ->
        fst (get_courses server st) = Raise (AttributeError "find_all")) /\
       (forall course_lists,
           find_next_sibling course_list heading = Some course_lists ->
           ((forall term, In term (find_all term_label course_lists) ->
                          find_next_sibling courses_for_term term = None) ->
            fst (get_courses server st) = Ok []) /\
           (forall tb, In tb (anchor_boxes course_lists) ->
                       box_complete (snd tb) = false ->
                       raises_builtin (fst (get_courses server st)))))) /\
  (forall course url,
      Course.get_url course = Ok url ->
      let response := server (Request.mk GET url [] :: session st) in
      let soup := BeautifulSoup response in
      Response.status_code response = 200%Z ->
      (find assignments_table soup = None ->
       fst (get_assignments server course st) = Raise (AttributeError "find")) /\
      (forall table,
          find assignments_table soup = Some table ->
          (find (by_name "tbody") table = None ->
           fst (get_assignments server course st) = Raise (AttributeError "find_all")) /\
          (forall tbody row,
              find (by_name "tbody") table = Some tbody ->
              In row (find_all (by_name "tr") tbody) ->
              row_complete row = false ->
              raises_builtin (fst (get_assignments server course st))))) /\
  (forall term courses,
      find_next_sibling courses_for_term term = None ->
      collect_term term courses = Ok courses) /\
  (forall term_name course n,
      _parse_int (id_segment course) = Ok n ->
      box_complete course = false ->
      make_course term_name course = Raise (AttributeError "get_text")) /\
  (forall row,
      find submit_control row = None ->
      make_assignment row = Raise not_subscriptable).
Proof.
  intros Hin. split; [| split; [| split; [| split]]].
  - intros response soup Hs.
    pose proof (get_courses_scrapes server st Hin Hs) as Hrun.
    rewrite scrape_courses_spec in Hrun. fold response in Hrun. fold soup in Hrun.
    split.
    + intros Hh. rewrite Hrun, Hh. reflexivity.
    + intros heading Hh. rewrite Hh in Hrun. split.
      * intros Hcl. rewrite Hrun, Hcl. reflexivity.
      * intros cl Hcl. rewrite Hcl in Hrun. split.
        -- intros Horphan. rewrite Hrun. unfold anchor_boxes, boxes_visited.
           rewrite flat_map_nil; [reflexivity |].
           intros term Hterm. unfold term_boxes. rewrite (Horphan term Hterm).
           reflexivity.
        -- intros tb Htb Hbox. rewrite Hrun.
           apply (map_result_builtin course_of_box _ tb).
           ++ intros y e. apply make_course_error.
           ++ exact Htb.
           ++ destruct (course_of_box tb) as [c | e] eqn:E; [| eauto].
              apply make_course_ok in E as [_ [_ [_ [_ [_ [_ E]]]]]]. congruence.
  - intros course url Hurl response soup Hs.
    pose proof (get_assignments_scrapes server course url st Hin Hurl Hs) as Hrun.
    rewrite scrape_assignments_spec in Hrun. fold response in Hrun. fold soup in Hrun.
    split.
    + intros Ht. rewrite Hrun, Ht. reflexivity.
    + intros table Ht. rewrite Ht in Hrun. split.
      * intros Hb. rewrite Hrun, Hb. reflexivity.
      * intros tbody row Hb Hrow Hinc. rewrite Hrun, Hb.
        apply (map_result_builtin make_assignment _ row).
        -- apply make_assignment_error.
        -- exact Hrow.
        -- destruct (make_assignment_incomplete row Hinc) as [e [He _]]. eauto.
  - intros term courses H. unfold collect_term. rewrite H. reflexivity.
  - intros term_name course n. apply make_course_incomplete.
  - apply make_assignment_no_button.
Qed.

Lemma missing_landmarks_raise_witness :
  raises_builtin
    (fst (get_assignments
            (Sample.serving (Sample.assignments_page_of [Sample.row_without_button]))
            Sample.course42 Sample.logged_in_object)).
Proof.
  refine (proj2 (proj2
    (proj1 (proj2
       (missing_landmarks_raise
          (Sample.serving (Sample.assignments_page_of [Sample.row_without_button]))
          Sample.logged_in_object eq_refl))
       Sample.course42 _ eq_refl eq_refl) _ eq_refl) _ _ eq_refl
    (or_introl eq_refl) eq_refl).
Defined.

(** C6, as stated, fails on a root page whose only term label has no
    courses container after it, where [get_courses] returns the empty list,
    and on a root page without the course list, where the exception is an
    [AttributeError]. *)
Lemma orphan_term_is_passed_over :
  fst (get_courses (Sample.serving Sample.page_with_orphan_term)
         Sample.logged_in_object) = Ok [] /\
  fst (get_courses (Sample.serving Sample.page_without_course_list)
         Sample.logged_in_object) = Raise (AttributeError "find_all").
Proof. split; vm_compute; reflexivity. Qed.

(** * Further properties *)

(** ** [_parse_int] *)

Lemma digits_value_nonneg (s : string) (acc : Z) :
  (0 <= acc)%Z -> Str.forallb Str.isdigit s = true -> (0 <= Str.digits_value acc s)%Z.
Proof.
  revert acc. induction s as [| c s IH]; intros acc Hacc H; [exact Hacc |].
  cbn [Str.forallb Str.digits_value] in *.
  apply andb_true_iff in H as [Hc H]. apply IH; [| exact H].
  apply digit_code in Hc. lia.
Qed.

(** X1.  [_parse_int] returns a number exactly when its text has between
    one and [int_max_str_digits] digits, and then the value of these digits
    read in order, whatever stands between them: the result is never
    negative. *)
Theorem parse_int_characterization (text : string) (n : Z) :
  (_parse_int text = Ok n <->
   Str.digits_of text <> EmptyString /\
   String.length (Str.digits_of text) <= int_max_str_digits /\
   n = Str.digits_value 0 (Str.digits_of text)) /\
  (_parse_int text = Ok n -> (0 <= n)%Z).
Proof.
  assert (Hiff : _parse_int text = Ok n <->
                 Str.digits_of text <> EmptyString /\
                 String.length (Str.digits_of text) <= int_max_str_digits /\
                 n = Str.digits_value 0 (Str.digits_of text)).
  { unfold _parse_int. rewrite py_int_of_digits by apply filter_all.
    destruct (Str.digits_of text) as [| c d] eqn:E.
    - split; [discriminate | intros [H _]; contradiction].
    - cbn [Str.is_empty orb].
      destruct (Nat.leb_spec (String.length (String c d)) int_max_str_digits)
        as [Hle | Hgt]; cbn [negb].
      + split.
        * intros [= <-]. repeat split; [discriminate | exact Hle].
        * intros [_ [_ ->]]. reflexivity.
      + split; [discriminate | intros [_ [Hle _]]; lia]. }
  split; [exact Hiff |].
  intros H. apply Hiff in H as [_ [_ ->]].
  apply digits_value_nonneg; [lia | apply filter_all].
Qed.

Lemma parse_int_characterization_witness : (0 <= 1012)%Z.
Proof.
  apply (proj2 (parse_int_characterization "cs-101b/2" 1012)).
  vm_compute. reflexivity.
Defined.

(** ** URL helpers on plain paths *)

Lemma forallb_weaken (f g : ascii -> bool) (s : string) :
  (forall c, f c = true -> g c = true) ->
  Str.forallb f s = true -> Str.forallb g s = true.
Proof.
  intros Hfg. induction s as [| c s IH]; [reflexivity |]. simpl. intros H.
  apply andb_true_iff in H as [Hc H]. rewrite (Hfg c Hc), (IH H). reflexivity.
Qed.

Lemma forallb_append (f : ascii -> bool) (a b : string) :
  Str.forallb f (a +:+ b) = Str.forallb f a && Str.forallb f b.
Proof.
  induction a as [| c a IH]; [reflexivity |]. simpl. rewrite IH.
  apply andb_assoc.
Qed.

Lemma cut_absent (c : ascii) (s : string) :
  Str.forallb (fun x => negb (Ascii.eqb x c)) s = true -> Str.cut c s = None.
Proof.
  induction s as [| a s IH]; [reflexivity |]. simpl. intros H.
  apply andb_true_iff in H as [Ha H]. apply negb_true_iff in Ha.
  rewrite Ha, (IH H). reflexivity.
Qed.

Lemma split_not_nil (c : ascii) (s : string) : Str.split c s <> [].
Proof.
  destruct s as [| a s]; simpl; [discriminate |].
  destruct (Ascii.eqb a c); [discriminate |].
  destruct (Str.split c s); discriminate.
Qed.

Lemma join_cons_char (sep : string) (c : ascii) (w : string) (ws : list string) :
  Str.join sep (String c w :: ws) = String c (Str.join sep (w :: ws)).
Proof. destruct ws; reflexivity. Qed.

(** Splitting at a character and joining with it gives the text back. *)
Lemma join_split (c : ascii) (s : string) :
  Str.join (String c EmptyString) (Str.split c s) = s.
Proof.
  induction s as [| a s IH]; [reflexivity |]. simpl.
  destruct (Ascii.eqb_spec a c) as [-> | _].
  - pose proof (split_not_nil c s) as Hne.
    destruct (Str.split c s) as [| w ws]; [contradiction |].
    change (String c (Str.join (String c EmptyString) (w :: ws)) = String c s).
    rewrite IH. reflexivity.
  - pose proof (split_not_nil c s) as Hne.
    destruct (Str.split c s) as [| w ws]; [contradiction |].
    rewrite join_cons_char, IH. reflexivity.
Qed.

(** Splitting a concatenation: the last piece of the first text and the
    first piece of the second make one piece. *)
Lemma split_append (c : ascii) (a b : string) :
  Str.split c (a +:+ b) =
    removelast (Str.split c a)
    ++ (List.last (Str.split c a) EmptyString
        +:+ List.hd EmptyString (Str.split c b))
    :: List.tl (Str.split c b).
Proof.
  induction a as [| x a IH].
  - simpl. pose proof (split_not_nil c b) as Hne.
    destruct (Str.split c b); [contradiction | reflexivity].
  - cbn [String.append Str.split]. rewrite IH.
    pose proof (split_not_nil c a) as Hne.
    destruct (Ascii.eqb x c).
    + destruct (Str.split c a) as [| w ws]; [contradiction | reflexivity].
    + destruct (Str.split c a) as [| w ws]; [contradiction |].
      destruct ws as [| w' ws']; reflexivity.
Qed.

Lemma resolve_plain (segments resolved : list string) :
  List.forallb (fun segment => negb (dot_segment segment)) segments = true ->
  urllib.resolve segments resolved = List.rev resolved ++ segments.
Proof.
  revert resolved. induction segments as [| seg rest IH]; intros resolved H.
  - simpl. rewrite app_nil_r. reflexivity.
  - simpl in H. apply andb_true_iff in H as [Hseg H].
    apply negb_true_iff in Hseg. unfold dot_segment in Hseg.
    apply orb_false_iff in Hseg as [H1 H2].
    cbn [urllib.resolve]. rewrite H2, H1, (IH _ H). simpl.
    rewrite <- app_assoc. reflexivity.
Qed.

Lemma last_plain (segments : list string) :
  segments <> [] ->
  List.forallb (fun segment => negb (dot_segment segment)) segments = true ->
  dot_segment (Str.last_item segments) = false.
Proof.
  intros Hne H. unfold Str.last_item.
  destruct (exists_last Hne) as [front [final ->]].
  rewrite last_last. rewrite forallb_app in H.
  apply andb_true_iff in H as [_ H]. simpl in H.
  rewrite andb_true_r in H. apply negb_true_iff in H. exact H.
Qed.

Section PlainPath.

Variable s : string.
Hypothesis Hplain : plain_path s = true.

Lemma plain_slash : Str.startswith "/" s = true.
Proof.
  unfold plain_path in Hplain. repeat rewrite andb_true_iff in Hplain. tauto.
Qed.

Lemma plain_one_slash : Str.startswith "//" s = false.
Proof.
  unfold plain_path in Hplain. repeat rewrite andb_true_iff in Hplain.
  apply negb_true_iff. tauto.
Qed.

Lemma plain_chars : Str.forallb (fun c => negb (url_special c)) s = true.
Proof.
  unfold plain_path in Hplain. repeat rewrite andb_true_iff in Hplain. tauto.
Qed.

Lemma plain_segments :
  List.forallb (fun segment => negb (dot_segment segment)) (Str.split "/"%char s) = true.
Proof.
  unfold plain_path in Hplain. repeat rewrite andb_true_iff in Hplain. tauto.
Qed.

Lemma plain_not_empty : Str.is_empty s = false.
Proof. pose proof plain_slash as H. destruct s; [discriminate | reflexivity]. Qed.

Lemma plain_without (c : ascii) :
  url_special c = true -> Str.cut c s = None.
Proof.
  intros Hc. apply cut_absent. eapply forallb_weaken; [| exact plain_chars].
  intros x Hx. apply negb_true_iff. apply negb_true_iff in Hx.
  destruct (Ascii.eqb_spec x c) as [-> |]; [congruence | reflexivity].
Qed.

Lemma urlsplit_plain (default_scheme : string) :
  urllib.urlsplit s default_scheme =
    Ok (urllib.mkParts default_scheme EmptyString s EmptyString EmptyString
          EmptyString).
Proof.
  unfold urllib.urlsplit.
  assert (H1 : Str.lstrip_by urllib.c0_control_or_space s = s).
  { pose proof plain_slash as H. destruct s as [| c r]; [reflexivity |].
    cbn [Str.startswith] in H. apply andb_true_iff in H as [H _].
    apply Ascii.eqb_eq in H. subst c. reflexivity. }
  assert (H2 : Str.filter (fun c => negb (urllib.unsafe_byte c)) s = s).
  { apply filter_id. eapply forallb_weaken; [| exact plain_chars].
    intros c Hc. apply negb_true_iff. apply negb_true_iff in Hc.
    unfold url_special in Hc. repeat (apply orb_false_iff in Hc as [Hc _]).
    apply Nat.leb_gt in Hc. unfold urllib.unsafe_byte.
    repeat (apply orb_false_iff; split); apply Nat.eqb_neq; lia. }
  rewrite H1, H2.
  rewrite (plain_without ":"%char eq_refl), plain_one_slash.
  cbn [rbind].
  rewrite (plain_without "#"%char eq_refl), (plain_without "?"%char eq_refl).
  reflexivity.
Qed.

Lemma urlparse_plain (default_scheme : string) :
  urllib.urlparse s default_scheme =
    Ok (urllib.mkParts default_scheme EmptyString s EmptyString EmptyString
          EmptyString).
Proof.
  unfold urllib.urlparse. rewrite urlsplit_plain. cbn [rbind urllib.path].
  unfold urllib.has_char. rewrite (plain_without ";"%char eq_refl).
  rewrite andb_false_r. reflexivity.
Qed.

(** Joined to the base URL, a plain path is appended to it. *)
Lemma urljoin_plain :
  urllib.urljoin Constants.BASE_URL s = Ok (Constants.BASE_URL +:+ s).
Proof.
  unfold urllib.urljoin.
  change (Str.is_empty Constants.BASE_URL) with false. cbv iota.
  rewrite plain_not_empty.
  change (urllib.urlparse Constants.BASE_URL EmptyString)
    with (Ok (urllib.mkParts "https" "www.gradescope.com" EmptyString EmptyString
                EmptyString EmptyString)).
  cbn [rbind urllib.scheme urllib.netloc urllib.path urllib.params urllib.query
         urllib.fragment].
  rewrite urlparse_plain.
  cbn [rbind urllib.scheme urllib.netloc urllib.path urllib.params urllib.query
         urllib.fragment].
  change (negb (String.eqb "https" "https") ||
          negb (urllib.mem "https" urllib.uses_relative)) with false.
  change (urllib.mem "https" urllib.uses_netloc) with true.
  cbn [Str.is_empty negb andb]. rewrite plain_not_empty. cbn [andb].
  rewrite plain_slash, (resolve_plain _ [] plain_segments). cbn [List.rev app].
  pose proof (last_plain _ (split_not_nil "/"%char s) plain_segments) as Hlast.
  unfold dot_segment in Hlast. rewrite Hlast.
  change "/" with (String "/"%char EmptyString) at 3.
  rewrite join_split, plain_not_empty.
  unfold urllib.urlunparse, urllib.urlunsplit.
  cbn [urllib.params urllib.scheme urllib.netloc urllib.path urllib.query
         urllib.fragment Str.is_empty negb orb andb].
  rewrite plain_slash. cbn [negb]. rewrite andb_false_r. reflexivity.
Qed.

End PlainPath.

Lemma plain_path_append (a b : string) :
  plain_path a = true ->
  Str.forallb (fun c => negb (url_special c)) b = true ->
  (a = "/" -> Str.startswith "/" b = false) ->
  List.forallb (fun segment => negb (dot_segment segment))
    (Str.split "/"%char (a +:+ b)) = true ->
  plain_path (a +:+ b) = true.
Proof.
  intros Ha Hb Hroot Hsegs.
  pose proof (plain_slash a Ha) as H1. pose proof (plain_one_slash a Ha) as H2.
  pose proof (plain_chars a Ha) as H3.
  unfold plain_path. rewrite Hsegs, forallb_append, H3, Hb.
  destruct a as [| x a]; [discriminate |].
  cbn [Str.startswith] in H1, H2. apply andb_true_iff in H1 as [Hx _].
  rewrite Hx in H2. cbn [andb] in H2.
  cbn [String.append Str.startswith]. rewrite Hx. cbn [andb].
  destruct a as [| y a].
  - apply Ascii.eqb_eq in Hx. subst x. specialize (Hroot eq_refl).
    cbn [String.append]. destruct b as [| z b]; [reflexivity |].
    cbn [Str.startswith] in Hroot. rewrite andb_true_r in Hroot.
    cbn [Str.startswith]. rewrite Hroot. reflexivity.
  - cbn [String.append Str.startswith] in *. rewrite H2. reflexivity.
Qed.

Lemma dot_segment_short (segment : string) :
  dot_segment segment = true -> String.length segment <= 2.
Proof.
  unfold dot_segment. intros H. apply orb_true_iff in H as [H | H];
    apply String.eqb_eq in H; subst; simpl; lia.
Qed.

Lemma length_append (a b : string) :
  String.length (a +:+ b) = String.length a + String.length b.
Proof. induction a; simpl; [reflexivity | rewrite IHa; reflexivity]. Qed.

Lemma split_restore (c : ascii) (a : string) :
  removelast (Str.split c a) ++ [List.last (Str.split c a) EmptyString]
  = Str.split c a.
Proof. symmetry. apply app_removelast_last. apply split_not_nil. Qed.

Lemma plain_with_scores (url : string) :
  plain_path url = true -> url <> "/" -> plain_path (url +:+ "/scores.csv") = true.
Proof.
  intros H Hne. apply plain_path_append; [exact H | reflexivity | contradiction |].
  rewrite split_append.
  change (Str.split "/"%char "/scores.csv") with [EmptyString; "scores.csv"].
  cbn [List.hd List.tl]. rewrite append_empty_r.
  change (?x :: ["scores.csv"]) with ([x] ++ ["scores.csv"]).
  rewrite app_assoc, split_restore, forallb_app, (plain_segments url H).
  reflexivity.
Qed.

Lemma plain_with_zip (url : string) :
  plain_path url = true -> plain_path (url +:+ ".zip") = true.
Proof.
  intros H. apply plain_path_append; [exact H | reflexivity | reflexivity |].
  rewrite split_append.
  change (Str.split "/"%char ".zip") with [".zip"]. cbn [List.hd List.tl].
  pose proof (plain_segments url H) as Hsegs.
  rewrite <- split_restore, forallb_app in Hsegs.
  apply andb_true_iff in Hsegs as [Hfront _].
  rewrite forallb_app, Hfront. cbn [List.forallb andb]. rewrite andb_true_r.
  apply negb_true_iff.
  destruct (dot_segment _) eqn:E; [| reflexivity].
  apply dot_segment_short in E. rewrite length_append in E. simpl in E. lia.
Qed.

(** X2.  For a stored URL that is an absolute path of plain segments, the
    full URL of a course, of an assignment and of a submission is the base
    URL followed by that path. *)
Theorem get_url_on_plain_path (path : string) :
  plain_path path = true ->
  (forall course, Course.url course = Some path ->
                  Course.get_url course = Ok (Constants.BASE_URL +:+ path)) /\
  (forall assignment, Assignment.url assignment = path ->
                      Assignment.get_url assignment = Ok (Constants.BASE_URL +:+ path)) /\
  (forall submission, Submission.url submission = path ->
                      Submission.get_url submission = Ok (Constants.BASE_URL +:+ path)).
Proof.
  intros H. repeat split.
  - intros course Hc. unfold Course.get_url. rewrite Hc. apply urljoin_plain. exact H.
  - intros assignment <-. apply urljoin_plain. exact H.
  - intros submission <-. apply urljoin_plain. exact H.
Qed.

Lemma get_url_on_plain_path_witness :
  Course.get_url Sample.course42 = Ok "https://www.gradescope.com/courses/42".
Proof.
  apply (proj1 (get_url_on_plain_path "/courses/42" eq_refl)). reflexivity.
Defined.

(** X3.  For an assignment stored with a plain path other than [/], the
    grades URL is the full URL followed by [/scores.csv].  Stored with [/]
    alone, the suffix is read as a host: the grades URL leaves the site. *)
Theorem get_grades_url_on_plain_path (assignment : Assignment.t) :
  (plain_path (Assignment.url assignment) = true ->
   Assignment.url assignment <> "/" ->
   Assignment.get_url assignment
   = Ok (Constants.BASE_URL +:+ Assignment.url assignment) /\
   Assignment.get_grades_url assignment
   = Ok (Constants.BASE_URL +:+ Assignment.url assignment +:+ "/scores.csv")) /\
  (Assignment.url assignment = "/" ->
   Assignment.get_grades_url assignment = Ok "https://scores.csv").
Proof.
  split.
  - intros H Hne. split; [apply urljoin_plain; exact H |].
    unfold Assignment.get_grades_url.
    rewrite (urljoin_plain _ (plain_with_scores _ H Hne)). reflexivity.
  - intros Hroot. unfold Assignment.get_grades_url. rewrite Hroot.
    vm_compute. reflexivity.
Qed.

Lemma get_grades_url_on_plain_path_witness :
  Assignment.get_grades_url
    (Assignment.mk 7 true "/courses/42/assignments/7" "Homework 1" false
       "Submitted" "2024-09-01" "2024-09-08")
  = Ok "https://www.gradescope.com/courses/42/assignments/7/scores.csv".
Proof.
  refine (proj2 (proj1 (get_grades_url_on_plain_path
                          (Assignment.mk 7 true "/courses/42/assignments/7"
                             "Homework 1" false "Submitted" "2024-09-01"
                             "2024-09-08")) eq_refl _)).
  discriminate.
Defined.

(** X4.  For a submission stored with a plain path, the file URL is the
    full URL followed by [.zip]. *)
Theorem get_file_url_on_plain_path (submission : Submission.t) :
  plain_path (Submission.url submission) = true ->
  Submission.get_url submission
  = Ok (Constants.BASE_URL +:+ Submission.url submission) /\
  Submission.get_file_url submission
  = Ok (Constants.BASE_URL +:+ Submission.url submission +:+ ".zip").
Proof.
  intros H. split; [apply urljoin_plain; exact H |].
  unfold Submission.get_file_url.
  rewrite (urljoin_plain _ (plain_with_zip _ H)). reflexivity.
Qed.

Lemma get_file_url_on_plain_path_witness :
  Submission.get_file_url
    (Submission.mk 42 7 1001 555 "2024-09-02" 10
       "/courses/42/assignments/7/submissions/555")
  = Ok "https://www.gradescope.com/courses/42/assignments/7/submissions/555.zip".
Proof.
  exact (proj2 (get_file_url_on_plain_path
                  (Submission.mk 42 7 1001 555 "2024-09-02" 10
                     "/courses/42/assignments/7/submissions/555") eq_refl)).
Defined.

(** ** What the calls leave alone *)

Lemma grows_refl (st : state) : grows 0 st st.
Proof.
  unfold grows. split; [reflexivity |]. split; [reflexivity |].
  split; [| split].
  - exists []. split; [reflexivity |]. split; [simpl; lia | constructor].
  - exists []. rewrite app_nil_r. reflexivity.
  - lia.
Qed.

Lemma grows_weaken (a b : nat) (st st' : state) :
  a <= b -> grows a st st' -> grows b st st'.
Proof.
  intros Hab [Hu [Hp [[new [Hs [Hn Hf]]] [Hl Hc]]]].
  unfold grows. split; [exact Hu |]. split; [exact Hp |].
  split; [| split; assumption].
  exists new. split; [exact Hs |]. split; [lia | exact Hf].
Qed.

Lemma grows_trans (a b : nat) (st1 st2 st3 : state) :
  grows a st1 st2 -> grows b st2 st3 -> grows (a + b) st1 st3.
Proof.
  intros [Hu1 [Hp1 [[new1 [Hs1 [Hn1 Hf1]]] [[r1 Hl1] Hc1]]]]
         [Hu2 [Hp2 [[new2 [Hs2 [Hn2 Hf2]]] [[r2 Hl2] Hc2]]]].
  unfold grows. split; [congruence |]. split; [congruence |].
  split; [| split].
  - exists (new2 ++ new1). split; [| split].
    + rewrite Hs2, Hs1, app_assoc. reflexivity.
    + rewrite length_app. lia.
    + apply Forall_app. split; [| exact Hf1]. rewrite <- Hu1, <- Hp1. exact Hf2.
  - exists (r1 ++ r2). rewrite Hl2, Hl1, app_assoc. reflexivity.
  - lia.
Qed.

(** A state that differs by one GET without data. *)
Lemma grows_get (url : string) (st : state) :
  grows 1 st (with_session (Request.mk GET url [] :: session st) st).
Proof.
  unfold grows. split; [reflexivity |]. split; [reflexivity |].
  split; [| split].
  - exists [Request.mk GET url []]. split; [reflexivity |]. split; [simpl; lia |].
    constructor; [| constructor]. left. split; reflexivity.
  - exists []. simpl. rewrite app_nil_r. reflexivity.
  - simpl. lia.
Qed.

Lemma grows_log (bound : nat) (st st' : state) (records : list (level * string)) :
  grows bound st st' -> grows bound st (with_log (log st' ++ records) st').
Proof.
  intros [Hu [Hp [Hs [[r Hl] Hc]]]].
  unfold grows. split; [exact Hu |]. split; [exact Hp |].
  split; [exact Hs |]. split; [| exact Hc].
  exists (r ++ records). simpl. rewrite Hl, app_assoc. reflexivity.
Qed.

Lemma grows_flag (bound : nat) (st st' : state) (flag : option bool) :
  grows bound st st' -> grows bound st (with_logged_in flag st').
Proof. intros H. exact H. Qed.

Lemma grows_clock (bound : nat) (st st' : state) (n : nat) :
  grows bound st st' -> clock_reads st' <= n -> grows bound st (with_clock_reads n st').
Proof.
  intros [Hu [Hp [Hs [Hl Hc]]]] Hn.
  unfold grows. split; [exact Hu |]. split; [exact Hp |].
  split; [exact Hs |]. split; [exact Hl |]. simpl. lia.
Qed.

Section Frame.

Variable server : site.
Variable now : wall_clock.

Lemma login_grows (st : state) : grows 2 st (snd (login server st)).
Proof.
  destruct (username st) as [u |] eqn:Hu;
    [destruct (password st) as [p |] eqn:Hp |].
  - set (sent := root_request :: session st).
    assert (Hroot : grows 2 st (with_session sent st))
      by (apply (grows_weaken 1); [lia | apply grows_get]).
    destruct (Z.eq_dec (Response.status_code (server sent)) 200) as [Hs | Hs].
    + destruct (find token_field (BeautifulSoup (server sent))) as [input |] eqn:Ht.
      * rewrite (login_posts server st u p input Hu Hp Hs Ht). fold sent.
        set (sent2 := login_request (tag_get "value" input) u p :: sent).
        assert (Hpost : grows 2 st (with_session sent2 st)).
        { unfold grows. split; [reflexivity |]. split; [reflexivity |].
          split; [| split].
          - exists [login_request (tag_get "value" input) u p; root_request].
            split; [reflexivity |]. split; [simpl; lia |].
            constructor; [| constructor; [| constructor]].
            + right. exists (tag_get "value" input), u, p. auto.
            + left. split; reflexivity.
          - exists []. simpl. rewrite app_nil_r. reflexivity.
          - simpl. lia. }
        destruct (_response_check _); [| exact Hpost].
        destruct (Str.contains "account" _);
          [| destruct (Str.contains "login" _)]; exact Hpost.
      * rewrite (login_without_token server st u p Hu Hp Hs Ht). exact Hroot.
    + destruct (login_root_refused server st u p Hu Hp Hs) as [msg [_ ->]].
      exact Hroot.
  - rewrite login_without_credentials by (right; exact Hp).
    apply (grows_weaken 0); [lia | apply grows_refl].
  - rewrite login_without_credentials by (left; exact Hu).
    apply (grows_weaken 0); [lia | apply grows_refl].
Qed.

Lemma get_courses_grows (st : state) :
  grows 1 st (snd (get_courses server st)) /\
  logged_in (snd (get_courses server st)) = logged_in st /\
  clock_reads (snd (get_courses server st)) = clock_reads st.
Proof.
  destruct (logged_in st) as [[|] |] eqn:H.
  - rewrite (get_courses_logged_in server st H).
    pose proof (grows_get Constants.BASE_URL st) as Hg. fold root_request in Hg.
    destruct (_response_check _); cbn [snd];
      [| split; [exact Hg | split; [exact H | reflexivity]]].
    destruct (scrape_courses _); cbn [snd];
      [| split; [exact Hg | split; [exact H | reflexivity]]].
    split; [| split; [exact H | reflexivity]].
    apply (grows_log 1 st (with_session (root_request :: session st) st)).
    exact Hg.
  - rewrite (get_courses_logged_out server st H). cbn [snd].
    split; [apply (grows_weaken 0); [lia | apply grows_refl] |].
    split; [exact H | reflexivity].
  - unfold get_courses, bind, self_logged_in. rewrite H. cbn [snd getattr].
    split; [apply (grows_weaken 0); [lia | apply grows_refl] |].
    split; [exact H | reflexivity].
Qed.

Lemma get_term_courses_grows (st : state) :
  grows 1 st (snd (get_term_courses server now st)) /\
  logged_in (snd (get_term_courses server now st)) = logged_in st.
Proof.
  destruct (get_courses_grows st) as [Hg [Hf _]].
  unfold get_term_courses, bind.
  destruct (get_courses server st) as [[courses | e] st1]; cbn [snd] in *;
    [| split; assumption].
  cbn. split; [| exact Hf].
  apply (grows_log 1 st
           (with_clock_reads (S (S (clock_reads st1))) st1)).
  apply grows_clock; [exact Hg | lia].
Qed.

Lemma get_assignments_grows (course : Course.t) (st : state) :
  grows 1 st (snd (get_assignments server course st)) /\
  logged_in (snd (get_assignments server course st)) = logged_in st /\
  log (snd (get_assignments server course st)) = log st.
Proof.
  assert (Hsame : grows 1 st st) by (apply (grows_weaken 0); [lia | apply grows_refl]).
  destruct (logged_in st) as [[|] |] eqn:H.
  - destruct (Course.get_url course) as [url | e] eqn:Hurl.
    + rewrite (get_assignments_logged_in server course url st H Hurl).
      pose proof (grows_get url st) as Hg.
      destruct (_response_check _); cbn [snd];
        (split; [exact Hg | split; [exact H | reflexivity]]).
    + unfold get_assignments, bind, self_logged_in, lift. rewrite H, Hurl.
      cbn [snd getattr negb]. split; [exact Hsame | split; [exact H | reflexivity]].
  - rewrite (get_assignments_logged_out server course st H). cbn [snd].
    split; [exact Hsame | split; [exact H | reflexivity]].
  - unfold get_assignments, bind, self_logged_in. rewrite H. cbn [snd getattr].
    split; [exact Hsame | split; [exact H | reflexivity]].
Qed.

Lemma perform_grows (c : call) (st : state) :
  grows 2 st (snd (perform server now c st)).
Proof.
  destruct c; cbn [perform].
  - pose proof (login_grows st) as H. destruct (login server st). exact H.
  - destruct (get_courses_grows st) as [H _]. destruct (get_courses server st).
    apply (grows_weaken 1); [lia | exact H].
  - destruct (get_term_courses_grows st) as [H _].
    destruct (get_term_courses server now st).
    apply (grows_weaken 1); [lia | exact H].
  - destruct (get_assignments_grows course st) as [H _].
    destruct (get_assignments server course st).
    apply (grows_weaken 1); [lia | exact H].
Qed.

Lemma perform_retrieval_flag (c : call) (st : state) :
  is_retrieval c = true ->
  logged_in (snd (perform server now c st)) = logged_in st.
Proof.
  destruct c; cbn [perform is_retrieval]; [discriminate | | |]; intros _.
  - destruct (get_courses_grows st) as [_ [H _]].
    destruct (get_courses server st). exact H.
  - destruct (get_term_courses_grows st) as [_ H].
    destruct (get_term_courses server now st). exact H.
  - destruct (get_assignments_grows course st) as [_ [H _]].
    destruct (get_assignments server course st). exact H.
Qed.

End Frame.

(** X5.  Whatever calls are made on an object and however the site answers,
    the credentials stay as they were, the requests already sent stay in
    the session, the log and the clock readings only grow, and every
    request added is a GET without form data or the POST of the object's
    own credentials to the login URL, at most two per call. *)
Theorem calls_send_only_expected_requests
    (server : site) (now : wall_clock) (calls : list call) (st : state) :
  grows (2 * length calls) st (snd (perform_all server now calls st)).
Proof.
  revert st. induction calls as [| c calls IH]; intros st.
  - apply grows_refl.
  - cbn [perform_all length].
    pose proof (perform_grows server now c st) as Hstep.
    destruct (perform server now c st) as [o st1]. cbn [snd] in Hstep.
    specialize (IH st1).
    destruct (perform_all server now calls st1) as [os st2]. cbn [snd] in *.
    replace (2 * S (length calls)) with (2 + 2 * length calls) by lia.
    eapply grows_trans; eassumption.
Qed.

(** ** The flag *)

Lemma response_check_raises (response : Response.t) (e : exn) :
  _response_check response = Raise e -> exists msg, e = ResponseError msg.
Proof.
  unfold _response_check. destruct (_ =? _)%Z; [discriminate |].
  intros [= <-]. eauto.
Qed.

(** X6.  A [login] that raises has either met an unknown final URL, and
    then the exception is [LoginError("Unknown return URL.")] and the flag
    is cleared, or stopped before looking at the final URL, with a
    [TypeError], a [ResponseError] or an [UnboundLocalError], and then the
    flag is left as it was: an object that was logged in still counts as
    logged in. *)
Theorem login_that_raises (server : site) (st st' : state) (e : exn) :
  login server st = (Raise e, st') ->
  (e = LoginError "Unknown return URL." /\ logged_in st' = Some false) \/
  ((exn_class e = "TypeError" \/ exn_class e = "ResponseError" \/
    exn_class e = "UnboundLocalError") /\
   logged_in st' = logged_in st).
Proof.
  intros Hrun.
  destruct (username st) as [u |] eqn:Hu;
    [destruct (password st) as [p |] eqn:Hp |].
  - set (sent := root_request :: session st) in *.
    destruct (Z.eq_dec (Response.status_code (server sent)) 200) as [Hs | Hs].
    + destruct (find token_field (BeautifulSoup (server sent))) as [input |] eqn:Ht.
      * rewrite (login_posts server st u p input Hu Hp Hs Ht) in Hrun.
        destruct (_response_check _) as [ok | e'] eqn:Hcheck.
        -- destruct (Str.contains "account" _); [discriminate |].
           destruct (Str.contains "login" _); [discriminate |].
           injection Hrun as <- <-. left. split; reflexivity.
        -- injection Hrun as <- <-.
           destruct (response_check_raises _ _ Hcheck) as [msg ->].
           right. split; [right; left; reflexivity | reflexivity].
      * rewrite (login_without_token server st u p Hu Hp Hs Ht) in Hrun.
        injection Hrun as <- <-.
        right. split; [right; right; reflexivity | reflexivity].
    + destruct (login_root_refused server st u p Hu Hp Hs) as [msg [_ Hl]].
      rewrite Hl in Hrun. injection Hrun as <- <-.
      right. split; [right; left; reflexivity | reflexivity].
  - rewrite login_without_credentials in Hrun by (right; exact Hp).
    injection Hrun as <- <-. right. split; [left; reflexivity | reflexivity].
  - rewrite login_without_credentials in Hrun by (left; exact Hu).
    injection Hrun as <- <-. right. split; [left; reflexivity | reflexivity].
Qed.

Lemma login_that_raises_witness :
  logged_in (snd (login Sample.site_under_maintenance Sample.logged_in_object))
  = Some true.
Proof.
  destruct (login_that_raises Sample.site_under_maintenance
              Sample.logged_in_object
              (snd (login Sample.site_under_maintenance Sample.logged_in_object))
              (ResponseError
                 "Failed to fetch the webpage. Status code: 503. URL: https://status.gradescope.com/")
              eq_refl) as [[H _] | [_ H]].
  - discriminate H.
  - exact H.
Defined.

(** X7.  The retrieval operations never change the flag.  So an object whose
    flag is set keeps it through any sequence of them, and [get_courses]
    then passes its guard: it sends the GET of the root page. *)
Theorem retrievals_keep_the_flag
    (server : site) (now : wall_clock) (calls : list call) (st : state) :
  List.forallb is_retrieval calls = true ->
  let st' := snd (perform_all server now calls st) in
  logged_in st' = logged_in st /\
  (logged_in st = Some true ->
   session (snd (get_courses server st')) = root_request :: session st').
Proof.
  intros Hcalls st'.
  assert (Hflag : logged_in st' = logged_in st).
  { subst st'. revert st. induction calls as [| c calls IH]; intros st;
      [reflexivity |].
    cbn [List.forallb] in Hcalls. apply andb_true_iff in Hcalls as [Hc Hcalls].
    cbn [perform_all].
    pose proof (perform_retrieval_flag server now c st Hc) as Hstep.
    destruct (perform server now c st) as [o st1]. cbn [snd] in Hstep.
    specialize (IH Hcalls st1).
    destruct (perform_all server now calls st1) as [os st2]. cbn [snd] in *.
    congruence. }
  split; [exact Hflag |].
  intros Hin. rewrite Hin in Hflag.
  rewrite (get_courses_logged_in server st' Hflag).
  destruct (_response_check _); [| reflexivity].
  destruct (scrape_courses _); reflexivity.
Qed.

Lemma retrievals_keep_the_flag_witness :
  let server := Sample.serving Sample.courses_page in
  let st' :=
    snd (perform_all server Sample.clock0
           [GetCourses; GetAssignments Sample.course42; GetTermCourses]
           Sample.logged_in_object) in
  logged_in st' = Some true.
Proof.
  intros server st'.
  exact (proj1 (retrievals_keep_the_flag server Sample.clock0
                  [GetCourses; GetAssignments Sample.course42; GetTermCourses]
                  Sample.logged_in_object eq_refl)).
Defined.

(** ** The current term *)

(** X8.  [get_term_courses] fails exactly as [get_courses] does, without
    reading the clock.  Otherwise it reads the clock twice and returns, in
    their order, the courses of [get_courses] whose term is the season of
    the month of the first reading, a space and the year of the second
    reading; the season is Spring exactly for months 2 to 6, Fall exactly
    for months 9 to 12 and Summer for every other number. *)
Theorem get_term_courses_selects (server : site) (now : wall_clock) (st : state) :
  match get_courses server st with
  | (Ok courses, st1) =>
      fst (get_term_courses server now st) =
        Ok (List.filter
              (fun course =>
                 String.eqb (Course.term course)
                   (term_label_at now (clock_reads st)))
              courses) /\
      clock_reads (snd (get_term_courses server now st)) = 2 + clock_reads st
  | (Raise e, st1) => get_term_courses server now st = (Raise e, st1)
  end /\
  (forall m : Z, season_of m = "Spring" <-> (2 <= m <= 6)%Z) /\
  (forall m : Z, season_of m = "Fall" <-> (9 <= m <= 12)%Z) /\
  (forall m : Z, season_of m = "Summer" <-> (m < 2 \/ 6 < m < 9 \/ 12 < m)%Z).
Proof.
  split; [| split; [| split]].
  - destruct (get_courses_grows server st) as [_ [_ Hclock]].
    unfold get_term_courses, bind.
    destruct (get_courses server st) as [[courses | e] st1]; [| reflexivity].
    cbn [snd] in Hclock. cbn. unfold term_label_at. rewrite Hclock.
    split; reflexivity.
  - intros m. unfold season_of.
    destruct (Z.leb_spec 2 m), (Z.leb_spec m 6), (Z.leb_spec 9 m),
      (Z.leb_spec m 12); cbn; split; intros Hm; try reflexivity;
      try discriminate; lia.
  - intros m. unfold season_of.
    destruct (Z.leb_spec 2 m), (Z.leb_spec m 6), (Z.leb_spec 9 m),
      (Z.leb_spec m 12); cbn; split; intros Hm; try reflexivity;
      try discriminate; lia.
  - intros m. unfold season_of.
    destruct (Z.leb_spec 2 m), (Z.leb_spec m 6), (Z.leb_spec 9 m),
      (Z.leb_spec m 12); cbn; split; intros Hm; try reflexivity;
      try discriminate; lia.
Qed.

Lemma get_term_courses_selects_witness : season_of 1 = "Summer".
Proof.
  apply (proj2 (proj2 (proj2 (get_term_courses_selects
                                (Sample.serving Sample.courses_page) Sample.clock0
                                Sample.logged_in_object)))).
  left. reflexivity.
Defined.

(** ** The rows of the assignments table *)

Lemma subscript_some (key : string) (o : option element) (v : string) :
  subscript key o = Ok v -> exists e, o = Some e /\ tag_get key e = Some v.
Proof.
  destruct o as [e |]; [| discriminate]. unfold subscript, tag_item.
  destruct (tag_get key e) as [v' |] eqn:E; [| discriminate].
  intros [= <-]. exists e. split; [reflexivity | exact E].
Qed.

Lemma make_assignment_gives (row : element) (assignment : dict) :
  make_assignment row = Ok assignment -> row_gives row assignment.
Proof.
  unfold make_assignment, row_gives.
  destruct (find submit_control row) as [button |] eqn:Hb; [| discriminate].
  destruct (subscript "data-assignment-id" _) as [id_text |] eqn:E1;
    [| discriminate]. cbn [rbind].
  destruct (py_int id_text) as [id |] eqn:E2; [| discriminate]. cbn [rbind].
  destruct (subscript "data-ready-for-submission" _) as [ready |] eqn:E3;
    [| discriminate]. cbn [rbind].
  destruct (subscript "data-post-url" _) as [post_url |] eqn:E4;
    [| discriminate]. cbn [rbind].
  destruct (subscript "data-assignment-title" _) as [title |] eqn:E5;
    [| discriminate]. cbn [rbind].
  destruct (subscript "data-show-late-submission-warning" _) as [late |] eqn:E6;
    [| discriminate]. cbn [rbind].
  destruct (find status_cell row) as [cell |] eqn:Hc; [| discriminate].
  cbn [rbind getattr].
  destruct (find status_text cell) as [status |] eqn:Ht; [| discriminate].
  cbn [rbind getattr].
  destruct (subscript "datetime" (find release_time row)) as [released |] eqn:E7;
    [| discriminate]. cbn [rbind].
  destruct (subscript "datetime" (find due_time row)) as [due |] eqn:E8;
    [| discriminate]. cbn [rbind].
  intros [= <-].
  apply subscript_some in E1 as [b1 [[= <-] E1]].
  apply subscript_some in E3 as [b3 [[= <-] E3]].
  apply subscript_some in E4 as [b4 [[= <-] E4]].
  apply subscript_some in E5 as [b5 [[= <-] E5]].
  apply subscript_some in E6 as [b6 [[= <-] E6]].
  exists button, cell, status, id_text, id, ready, post_url, title, late,
    released, due.
  repeat (split; [assumption || reflexivity |]). reflexivity.
Qed.

(** X9.  When [get_assignments] returns, the object was logged in, one GET
    went to the course's URL, and the result has one dictionary per row of
    the body of the assignments table, in order: its keys are the eight
    fields in the order of their assignment, the identifier is [int] of
    the control's attribute, each of the two flags is true exactly when
    its attribute is the text [true], and the status is stripped. *)
Theorem get_assignments_rows
    (server : site) (course : Course.t) (st st' : state) (assignments : list dict) :
  get_assignments server course st = (Ok assignments, st') ->
  exists url table tbody,
    logged_in st = Some true /\
    Course.get_url course = Ok url /\
    st' = with_session (Request.mk GET url [] :: session st) st /\
    let soup := BeautifulSoup (server (Request.mk GET url [] :: session st)) in
    find assignments_table soup = Some table /\
    find (by_name "tbody") table = Some tbody /\
    Forall2 row_gives (find_all (by_name "tr") tbody) assignments.
Proof.
  intros Hrun.
  destruct (logged_in st) as [[|] |] eqn:Hin.
  - destruct (Course.get_url course) as [url | e] eqn:Hurl.
    + rewrite (get_assignments_logged_in server course url st Hin Hurl) in Hrun.
      destruct (_response_check _); [| discriminate].
      injection Hrun as Hscrape <-.
      rewrite scrape_assignments_spec in Hscrape.
      destruct (find assignments_table _) as [table |] eqn:Ht; [| discriminate].
      destruct (find (by_name "tbody") table) as [tbody |] eqn:Hb; [| discriminate].
      exists url, table, tbody. repeat (split; [reflexivity || assumption |]).
      apply map_result_ok in Hscrape.
      induction Hscrape as [| row d rows ds Hrow _ IH]; constructor;
        [apply make_assignment_gives; exact Hrow | exact IH].
    + unfold get_assignments, bind, self_logged_in, lift in Hrun.
      rewrite Hin, Hurl in Hrun. discriminate.
  - rewrite (get_assignments_logged_out server course st Hin) in Hrun. discriminate.
  - unfold get_assignments, bind, self_logged_in in Hrun. rewrite Hin in Hrun.
    discriminate.
Qed.

Lemma get_assignments_rows_witness :
  exists url,
    Course.get_url Sample.course42 = Ok url /\
    url = "https://www.gradescope.com/courses/42".
Proof.
  destruct (get_assignments_rows
              (Sample.serving (Sample.assignments_page_of [Sample.assignment_row]))
              Sample.course42 Sample.logged_in_object _ _ eq_refl)
    as [url [_ [_ [_ [Hurl _]]]]].
  exists url. split; [exact Hurl |].
  vm_compute in Hurl. injection Hurl as <-. reflexivity.
Defined.

(** ** Stripped texts *)

Lemma rev_onto_append (s acc : string) : Str.rev_onto s acc = Str.rev s +:+ acc.
Proof.
  unfold Str.rev. revert acc. induction s as [| c s IH]; intros acc; [reflexivity |].
  simpl. rewrite IH, (IH (String c EmptyString)), append_assoc. reflexivity.
Qed.

Lemma rev_cons (c : ascii) (s : string) :
  Str.rev (String c s) = Str.rev s +:+ String c EmptyString.
Proof. unfold Str.rev at 1. simpl. apply rev_onto_append. Qed.

Lemma rev_append (a b : string) : Str.rev (a +:+ b) = Str.rev b +:+ Str.rev a.
Proof.
  induction a as [| c a IH]; simpl.
  - rewrite append_empty_r. reflexivity.
  - rewrite !rev_cons, IH, append_assoc. reflexivity.
Qed.

Lemma forallb_rev (f : ascii -> bool) (s : string) :
  Str.forallb f (Str.rev s) = Str.forallb f s.
Proof. unfold Str.rev. rewrite forallb_rev_onto. simpl. apply andb_true_r. Qed.

Lemma rev_is_empty (s : string) : Str.is_empty (Str.rev s) = Str.is_empty s.
Proof.
  destruct s as [| c s]; [reflexivity |]. rewrite rev_cons.
  destruct (Str.rev s); reflexivity.
Qed.

Lemma lstrip_append (f : ascii -> bool) (a b : string) :
  Str.lstrip_by f (a +:+ b) =
    if Str.forallb f a then Str.lstrip_by f b else Str.lstrip_by f a +:+ b.
Proof.
  induction a as [| c a IH]; [reflexivity |]. simpl.
  destruct (f c); [exact IH | reflexivity].
Qed.

Lemma lstrip_starts_outside (f : ascii -> bool) (s : string) :
  starts_outside f (Str.lstrip_by f s) = true.
Proof.
  induction s as [| c s IH]; [reflexivity |]. simpl.
  destruct (f c) eqn:E; [exact IH | simpl; rewrite E; reflexivity].
Qed.

Lemma lstrip_unchanged (f : ascii -> bool) (s : string) :
  starts_outside f s = true -> Str.lstrip_by f s = s.
Proof.
  destruct s as [| c s]; [reflexivity |]. simpl. intros H.
  apply negb_true_iff in H. rewrite H. reflexivity.
Qed.

Lemma rstrip_ends_outside (f : ascii -> bool) (s : string) :
  starts_outside f (Str.rev (Str.rstrip_by f s)) = true.
Proof.
  unfold Str.rstrip_by. rewrite rev_involutive. apply lstrip_starts_outside.
Qed.

Lemma rstrip_keeps_start (f : ascii -> bool) (s : string) :
  starts_outside f s = true -> starts_outside f (Str.rstrip_by f s) = true.
Proof.
  destruct s as [| c s]; [reflexivity |]. cbn [starts_outside]. intros Hc.
  apply negb_true_iff in Hc.
  unfold Str.rstrip_by. rewrite rev_cons, lstrip_append.
  destruct (Str.forallb f (Str.rev s)).
  - cbn [Str.lstrip_by]. rewrite Hc. cbn. rewrite Hc. reflexivity.
  - rewrite rev_append. cbn. rewrite Hc. reflexivity.
Qed.

Lemma strip_clean (s : string) :
  starts_outside Str.isspace (Str.strip s) = true /\
  starts_outside Str.isspace (Str.rev (Str.strip s)) = true.
Proof.
  unfold Str.strip. split.
  - apply rstrip_keeps_start, lstrip_starts_outside.
  - apply rstrip_ends_outside.
Qed.

Lemma strip_unchanged (s : string) :
  starts_outside Str.isspace s = true ->
  starts_outside Str.isspace (Str.rev s) = true ->
  Str.strip s = s.
Proof.
  intros H1 H2. unfold Str.strip, Str.rstrip_by.
  rewrite (lstrip_unchanged _ s H1), (lstrip_unchanged _ _ H2).
  apply rev_involutive.
Qed.

Lemma strip_idempotent (s : string) : Str.strip (Str.strip s) = Str.strip s.
Proof. destruct (strip_clean s) as [H1 H2]. apply strip_unchanged; assumption. Qed.

Lemma starts_outside_append (f : ascii -> bool) (a b : string) :
  Str.is_empty a = false -> starts_outside f (a +:+ b) = starts_outside f a.
Proof. destruct a; [discriminate | reflexivity]. Qed.

(** Joining without separator texts that are stripped and not empty gives
    a stripped text. *)
Lemma join_clean (l : list string) :
  Forall (fun x => Str.is_empty x = false /\
                   starts_outside Str.isspace x = true /\
                   starts_outside Str.isspace (Str.rev x) = true) l ->
  (l <> [] -> Str.is_empty (Str.join EmptyString l) = false) /\
  starts_outside Str.isspace (Str.join EmptyString l) = true /\
  starts_outside Str.isspace (Str.rev (Str.join EmptyString l)) = true.
Proof.
  induction 1 as [| x rest [Hne [Hs He]] Hrest [IHne [IHs IHe]]].
  - repeat split; intros; congruence.
  - destruct rest as [| y rest].
    + cbn [Str.join]. repeat split; auto.
    + change (Str.join EmptyString (x :: y :: rest))
        with (x +:+ EmptyString +:+ Str.join EmptyString (y :: rest)).
      cbn [String.append].
      assert (Hj : Str.is_empty (Str.join EmptyString (y :: rest)) = false)
        by (apply IHne; discriminate).
      split; [| split].
      * intros _. destruct x; [discriminate | reflexivity].
      * rewrite starts_outside_append by exact Hne. exact Hs.
      * rewrite rev_append, starts_outside_append; [exact IHe |].
        rewrite rev_is_empty. exact Hj.
Qed.

(** [get_text(strip=True)] is a stripped text. *)
Lemma get_text_stripped (e : element) :
  Str.strip (get_text true e) = get_text true e.
Proof.
  unfold get_text.
  destruct (join_clean
              (List.filter (fun s => negb (Str.is_empty s))
                 (List.map Str.strip (all_strings (here e))))) as [_ [H1 H2]].
  - apply Forall_forall. intros x Hx. apply filter_In in Hx as [Hin Hne].
    apply in_map_iff in Hin as [y [<- _]]. apply negb_true_iff in Hne.
    destruct (strip_clean y) as [Hs He]. auto.
  - apply strip_unchanged; assumption.
Qed.

Lemma visited_terms_stripped (course_lists : element) :
  Forall (fun tb => Str.strip (fst tb) = fst tb) (anchor_boxes course_lists).
Proof.
  apply Forall_forall. intros tb Hin.
  unfold anchor_boxes, boxes_visited in Hin.
  apply filter_In in Hin as [Hin _].
  apply in_flat_map in Hin as [term [_ Hin]].
  unfold term_boxes in Hin.
  destruct (find_next_sibling courses_for_term term); [| contradiction].
  apply in_map_iff in Hin as [box [<- _]]. apply get_text_stripped.
Qed.

(** X11.  The texts the client hands out are stripped: the term, the short
    name and the full name of every course [get_courses] returns, and the
    submission status of every row [get_assignments] returns, have no
    white space at either end, so that stripping them again changes
    nothing. *)
Theorem returned_texts_are_stripped (server : site) (st : state) :
  (forall courses st',
      get_courses server st = (Ok courses, st') ->
      Forall (fun c =>
                Str.strip (Course.term c) = Course.term c /\
                Str.strip (Course.short_name c) = Course.short_name c /\
                Str.strip (Course.full_name c) = Course.full_name c)
             courses) /\
  (forall course assignments st',
      get_assignments server course st = (Ok assignments, st') ->
      Forall (fun d =>
                exists status,
                  dict_get "submission_status" d = Some (VStr status) /\
                  Str.strip status = status)
             assignments).
Proof.
  split.
  - intros courses st' Hrun. apply get_courses_returns in Hrun.
    rewrite scrape_courses_spec in Hrun.
    destruct (find courses_heading _) as [heading |]; [| discriminate].
    destruct (find_next_sibling course_list heading) as [cl |]; [| discriminate].
    apply map_result_ok in Hrun.
    pose proof (visited_terms_stripped cl) as Hterms.
    induction Hrun as [| tb c boxes courses Htb _ IH]; constructor.
    + apply Forall_inv in Hterms.
      unfold course_of_box, make_course in Htb.
      destruct (_parse_int _); [| discriminate]. cbn [rbind] in Htb.
      destruct (find shortname_node (snd tb)); [| discriminate].
      destruct (find name_node (snd tb)); [| discriminate].
      cbn in Htb. injection Htb as <-. cbn.
      split; [exact Hterms | split; apply get_text_stripped].
    + apply IH. apply Forall_inv_tail in Hterms. exact Hterms.
  - intros course assignments st' Hrun.
    destruct (get_assignments_rows server course st st' assignments Hrun)
      as [url [table [tbody [_ [_ [_ [_ [_ Hrows]]]]]]]].
    clear Hrun.
    induction Hrows as [| row d rows ds Hrow _ IH]; [constructor |].
    constructor; [| exact IH].
    destruct Hrow as [button [cell [status [id_text [id [ready [post_url [title
      [late [released [due H]]]]]]]]]]].
    do 11 (destruct H as [_ H]). subst d.
    exists (Str.strip (get_text false status)). split; [reflexivity |].
    apply strip_idempotent.
Qed.

Lemma returned_texts_are_stripped_witness :
  Forall (fun c => Str.strip (Course.full_name c) = Course.full_name c)
    [Sample.course42].
Proof.
  pose proof (proj1 (returned_texts_are_stripped
                       (Sample.serving Sample.courses_page) Sample.logged_in_object)
                _ _ eq_refl) as H.
  apply Forall_inv in H. destruct H as [_ [_ H]].
  constructor; [exact H | constructor].
Defined.

(** ** From the course list to a course page *)

Lemma get_courses_returns_logged_in
    (server : site) (st st' : state) (courses : list Course.t) :
  get_courses server st = (Ok courses, st') ->
  logged_in st = Some true /\ logged_in st' = Some true.
Proof.
  intros Hrun. destruct (get_courses_grows server st) as [_ [Hflag _]].
  rewrite Hrun in Hflag. cbn [snd] in Hflag.
  destruct (logged_in st) as [[|] |] eqn:Hin.
  - split; [reflexivity | exact Hflag].
  - rewrite (get_courses_logged_out server st Hin) in Hrun. discriminate.
  - unfold get_courses, bind, self_logged_in in Hrun. rewrite Hin in Hrun.
    discriminate.
Qed.

(** X10.  After [get_courses] has returned, the object is still logged in,
    and [get_assignments] on any of the returned courses whose URL is a
    plain path sends exactly one request, the GET of the base URL followed
    by that path; when the response has status 200 its result is what the
    scraping of that page gives. *)
Theorem get_assignments_after_get_courses
    (server : site) (st st1 : state) (courses : list Course.t) :
  get_courses server st = (Ok courses, st1) ->
  logged_in st1 = Some true /\
  (forall course path,
      In course courses ->
      Course.url course = Some path ->
      plain_path path = true ->
      let request := Request.mk GET (Constants.BASE_URL +:+ path) [] in
      session (snd (get_assignments server course st1)) = request :: session st1 /\
      (Response.status_code (server (request :: session st1)) = 200%Z ->
       fst (get_assignments server course st1) =
         scrape_assignments (BeautifulSoup (server (request :: session st1))))).
Proof.
  intros Hrun. destruct (get_courses_returns_logged_in _ _ _ _ Hrun) as [_ Hin].
  split; [exact Hin |].
  intros course path _ Hurl Hplain request.
  assert (Hget : Course.get_url course = Ok (Constants.BASE_URL +:+ path)).
  { unfold Course.get_url. rewrite Hurl. apply urljoin_plain. exact Hplain. }
  split.
  - rewrite (get_assignments_logged_in server course _ st1 Hin Hget).
    destruct (_response_check _); reflexivity.
  - intros Hs. apply get_assignments_scrapes; assumption.
Qed.

Lemma get_assignments_after_get_courses_witness :
  let server := Sample.serving Sample.courses_page in
  let st1 := snd (get_courses server Sample.logged_in_object) in
  session (snd (get_assignments server Sample.course42 st1))
  = Request.mk GET "https://www.gradescope.com/courses/42" [] :: session st1.
Proof.
  intros server st1.
  exact (proj1 (proj2 (get_assignments_after_get_courses server
                         Sample.logged_in_object st1 [Sample.course42] eq_refl)
                  Sample.course42 "/courses/42" (or_introl eq_refl) eq_refl
                  eq_refl)).
Defined.

(** ** When [login] returns *)

(** X12.  [login] returns [True] exactly when the object has both
    credentials, the root page comes with status 200 and a token field, the
    POST of the credentials with that field's value comes with status 200
    and its final URL contains "account"; it returns [False] exactly when
    all this holds except that the final URL contains "login" and not
    "account". *)
Theorem login_returns_exactly_when (server : site) (st : state) (b : bool) :
  fst (login server st) = Ok b <->
  exists u p input,
    username st = Some u /\ password st = Some p /\
    let sent1 := root_request :: session st in
    Response.status_code (server sent1) = 200%Z /\
    find token_field (BeautifulSoup (server sent1)) = Some input /\
    let final := server (login_request (tag_get "value" input) u p :: sent1) in
    Response.status_code final = 200%Z /\
    Str.contains "account" (Response.url final) = b /\
    (b = false -> Str.contains "login" (Response.url final) = true).
Proof.
  split.
  - intros Hrun.
    destruct (username st) as [u |] eqn:Hu;
      [destruct (password st) as [p |] eqn:Hp |].
    + set (sent := root_request :: session st) in *.
      destruct (Z.eq_dec (Response.status_code (server sent)) 200) as [Hs | Hs].
      * destruct (find token_field (BeautifulSoup (server sent))) as [input |] eqn:Ht.
        -- exists u, p, input. cbv zeta. fold sent.
           rewrite (login_posts server st u p input Hu Hp Hs Ht) in Hrun.
           fold sent in Hrun.
           set (final := server (login_request (tag_get "value" input) u p :: sent)) in *.
           destruct (Z.eq_dec (Response.status_code final) 200) as [Hf | Hf].
           ++ rewrite (response_check_ok _ Hf) in Hrun.
              destruct (Str.contains "account" (Response.url final)) eqn:Ha.
              ** injection Hrun as <-. repeat split; auto. discriminate.
              ** destruct (Str.contains "login" (Response.url final)) eqn:Hl;
                   [| discriminate].
                 injection Hrun as <-. repeat split; auto.
           ++ destruct (response_check_fails _ Hf) as [msg [Hm _]].
              rewrite Hm in Hrun. discriminate.
        -- rewrite (login_without_token server st u p Hu Hp Hs Ht) in Hrun.
           discriminate.
      * destruct (login_root_refused server st u p Hu Hp Hs) as [msg [_ Hl]].
        rewrite Hl in Hrun. discriminate.
    + rewrite login_without_credentials in Hrun by (right; exact Hp). discriminate.
    + rewrite login_without_credentials in Hrun by (left; exact Hu). discriminate.
  - intros [u [p [input [Hu [Hp H]]]]]. cbv zeta in H.
    destruct H as [Hs [Ht [Hf [Ha Hl]]]].
    rewrite (login_posts server st u p input Hu Hp Hs Ht).
    rewrite (response_check_ok _ Hf), Ha.
    destruct b; [reflexivity |]. rewrite (Hl eq_refl). reflexivity.
Qed.

Lemma login_returns_exactly_when_witness :
  Response.status_code (Sample.accepting_site [root_request]) = 200%Z.
Proof.
  destruct (proj1 (login_returns_exactly_when Sample.accepting_site Sample.alice true)
              eq_refl) as [u [p [input [Hu [Hp H]]]]].
  cbv zeta in H. destruct H as [Hs _]. exact Hs.
Defined.

(** ** The log *)

Lemma login_log (server : site) (st : state) : log (snd (login server st)) = log st.
Proof.
  destruct (username st) as [u |] eqn:Hu;
    [destruct (password st) as [p |] eqn:Hp |].
  - set (sent := root_request :: session st).
    destruct (Z.eq_dec (Response.status_code (server sent)) 200) as [Hs | Hs].
    + destruct (find token_field (BeautifulSoup (server sent))) as [input |] eqn:Ht.
      * rewrite (login_posts server st u p input Hu Hp Hs Ht).
        destruct (_response_check _); [| reflexivity].
        destruct (Str.contains "account" _);
          [| destruct (Str.contains "login" _)]; reflexivity.
      * rewrite (login_without_token server st u p Hu Hp Hs Ht). reflexivity.
    + destruct (login_root_refused server st u p Hu Hp Hs) as [msg [_ ->]].
      reflexivity.
  - rewrite login_without_credentials by (right; exact Hp). reflexivity.
  - rewrite login_without_credentials by (left; exact Hu). reflexivity.
Qed.

(** X13.  What is logged: [login] and [get_assignments] log nothing;
    [get_courses] logs one info record with the number of courses it
    returns, and nothing when it raises; [get_term_courses] logs that
    record and one with the number of courses it returns itself, and
    nothing when it raises; the constructor logs one record, info when the
    flag is set and warning when it is not, and nothing when it raises. *)
Theorem what_is_logged (server : site) (now : wall_clock) (st : state) :
  log (snd (login server st)) = log st /\
  (forall course, log (snd (get_assignments server course st)) = log st) /\
  match get_courses server st with
  | (Ok courses, st') =>
      log st' = log st ++ [(INFO, "[Info] Found "
                                  +:+ Str.of_Z (Z.of_nat (length courses))
                                  +:+ " courses.")]
  | (Raise _, st') => log st' = log st
  end /\
  match get_term_courses server now st with
  | (Ok chosen, st') =>
      exists courses,
        fst (get_courses server st) = Ok courses /\
        log st' = log st ++ [(INFO, "[Info] Found "
                                    +:+ Str.of_Z (Z.of_nat (length courses))
                                    +:+ " courses.");
                             (INFO, "[Info] Found "
                                    +:+ Str.of_Z (Z.of_nat (length chosen))
                                    +:+ " courses for the current term.")]
  | (Raise _, st') => log st' = log st
  end /\
  (forall u p,
      match Gradescope server u p st with
      | (Ok _, obj) =>
          exists b,
            logged_in obj = Some b /\
            log obj = log st ++ [if b then (INFO, "[Info] Login successful.")
                                 else (WARNING, "[Warning] Login failed.")]
      | (Raise _, st') => log st' = log st
      end).
Proof.
  assert (Hcourses :
            match get_courses server st with
            | (Ok courses, st') =>
                log st' = log st ++ [(INFO, "[Info] Found "
                                            +:+ Str.of_Z (Z.of_nat (length courses))
                                            +:+ " courses.")]
            | (Raise _, st') => log st' = log st
            end).
  { destruct (logged_in st) as [[|] |] eqn:H.
    - rewrite (get_courses_logged_in server st H).
      destruct (_response_check _); [| reflexivity].
      destruct (scrape_courses _); reflexivity.
    - rewrite (get_courses_logged_out server st H). reflexivity.
    - unfold get_courses, bind, self_logged_in. rewrite H. reflexivity. }
  split; [apply login_log |].
  split; [intros course; apply (get_assignments_grows server course st) |].
  split; [exact Hcourses |]. split.
  - unfold get_term_courses, bind.
    destruct (get_courses server st) as [[courses | e] st1]; [| exact Hcourses].
    cbn. exists courses. split; [reflexivity |].
    rewrite Hcourses, <- app_assoc. reflexivity.
  - intros u p. unfold Gradescope, __init__, bind.
    pose proof (login_log server (new_object u p st)) as Hlog.
    pose proof (login_flag server (new_object u p st)) as Hflag.
    destruct (login server (new_object u p st)) as [[b | e] st1];
      cbn [snd] in Hlog; [| exact Hlog].
    destruct b; cbn; [exists true | exists false];
      (split; [exact Hflag | rewrite Hlog; reflexivity]).
Qed.
